(** * Codeformer_adapt.py: the CAAT perturbation script

    A shallow embedding of [src/Codeformer_adapt.py]: argument validation
    ([parse_args]), the dataset ([CustomDiffusionDataset]) and the
    adversarial training loop of [main] (mask construction, denoising
    loss, PGD update, optimizer step, checkpointing).

    Conventions.
    - Python [int] is [Z]; [//] and [%] are [Z.div] and [Z.modulo]
      (both floor towards minus infinity, as in Python) and raise
      [ZeroDivisionError] on a zero divisor.
    - Tensor and array elements are exact rationals [Q]: float32 rounding
      and NaN are not modelled.
    - Code that can raise returns [result]; the exception is kept.
    - The pretrained networks, autograd, PIL, the tokenizer, the optimizer
      and the random generators are outside the script.  Their outputs
      enter the model as arguments (draws, per-step observations) or as
      members of an interface class. *)

From Stdlib Require Import ZArith QArith Qminmax Qabs Qround Lqa Lia List Bool Ascii String
  Permutation.
Import ListNotations.
Local Open Scope Z_scope.

(** ** Python runtime *)

Inductive exn : Type :=
| ValueError (msg : string)
| ZeroDivisionError
| IndexError
| RuntimeError (msg : string).

Inductive result (A : Type) : Type :=
| Ok (a : A)
| Raise (e : exn).
Arguments Ok {A} a.
Arguments Raise {A} e.

Definition bind {A B} (r : result A) (k : A -> result B) : result B :=
  match r with
  | Ok a => k a
  | Raise e => Raise e
  end.

Notation "x <- r ;; k" := (bind r (fun x => k))
  (at level 61, r at next level, right associativity).
Notation "' p <- r ;; k" := (bind r (fun x => let p := x in k))
  (at level 61, p pattern, r at next level, right associativity).

Definition raises_ValueError {A} (r : result A) : Prop :=
  exists msg, r = Raise (ValueError msg).

(** [a // b] *)
Definition py_floordiv (a b : Z) : result Z :=
  if b =? 0 then Raise ZeroDivisionError else Ok (a / b).

(** [a % b] *)
Definition py_mod (a b : Z) : result Z :=
  if b =? 0 then Raise ZeroDivisionError else Ok (a mod b).

Definition len {A} (l : list A) : Z := Z.of_nat (List.length l).

(** [l[i]] on a list: a negative index counts from the end. *)
Definition py_getitem {A} (l : list A) (i : Z) : result A :=
  let j := if i <? 0 then i + len l else i in
  if (j <? 0) || (len l <=? j) then Raise IndexError
  else match nth_error l (Z.to_nat j) with
       | Some x => Ok x
       | None => Raise IndexError
       end.

(** The bound a slice [start:stop] uses for an index [i] on length [n]. *)
Definition slice_index (n i : Z) : Z :=
  if i <? 0 then Z.max (i + n) 0 else Z.min i n.

(** Whether position [i] of a sequence of length [n] lies in [start:stop]. *)
Definition in_slice (n start stop i : Z) : bool :=
  (slice_index n start <=? i) && (i <? slice_index n stop).

(** [l[start:stop]] *)
Definition py_slice {A} (l : list A) (start stop : Z) : list A :=
  let a := slice_index (len l) start in
  let b := slice_index (len l) stop in
  firstn (Z.to_nat (b - a)) (skipn (Z.to_nat a) l).

Definition zth {A} (l : list A) (i : Z) : option A :=
  if i <? 0 then None else nth_error l (Z.to_nat i).

Fixpoint imap_from {A B} (f : Z -> A -> B) (k : Z) (l : list A) : list B :=
  match l with
  | [] => []
  | x :: t => f k x :: imap_from f (k + 1) t
  end.

(** [np.random.randint(low, high)]: [raw] is the generator's raw output, so
    every value of [low, high) can be drawn and none outside. *)
Definition np_random_randint (raw low high : Z) : result Z :=
  if high <=? low then Raise (ValueError "low >= high")
  else Ok (low + raw mod (high - low)).

(** ** Arrays *)

Definition array2 (A : Type) := list (list A).
Definition array3 (A : Type) := list (list (list A)).
Definition array4 (A : Type) := list (list (list (list A))).

Definition full2 (rows cols : Z) (v : Q) : array2 Q :=
  repeat (repeat v (Z.to_nat cols)) (Z.to_nat rows).

Definition full3 (rows cols chans : Z) (v : Q) : array3 Q :=
  repeat (repeat (repeat v (Z.to_nat chans)) (Z.to_nat cols)) (Z.to_nat rows).

(** [np.zeros(shape)] and [np.ones(shape)] *)
Definition np_zeros2 (rows cols : Z) : result (array2 Q) :=
  if (rows <? 0) || (cols <? 0)
  then Raise (ValueError "negative dimensions are not allowed")
  else Ok (full2 rows cols 0%Q).

Definition np_ones2 (rows cols : Z) : result (array2 Q) :=
  if (rows <? 0) || (cols <? 0)
  then Raise (ValueError "negative dimensions are not allowed")
  else Ok (full2 rows cols 1%Q).

Definition np_zeros3 (rows cols chans : Z) : result (array3 Q) :=
  if (rows <? 0) || (cols <? 0) || (chans <? 0)
  then Raise (ValueError "negative dimensions are not allowed")
  else Ok (full3 rows cols chans 0%Q).

(** [a[r0:r1, c0:c1] = v] for a scalar [v] *)
Definition assign_scalar2 {A} (a : array2 A) (r0 r1 c0 c1 : Z) (v : A) : array2 A :=
  imap_from
    (fun i row =>
       if in_slice (len a) r0 r1 i
       then imap_from (fun j x => if in_slice (len row) c0 c1 j then v else x) 0 row
       else row)
    0 a.

(** [a[r0:r1, c0:c1, :] = b]: position [(i, j)] of the slice receives
    [b[i - r0', j - c0']], the primed bounds being those of the slice. *)
Definition assign_block {A} (a : array2 A) (r0 r1 c0 c1 : Z) (b : array2 A) : array2 A :=
  imap_from
    (fun i row =>
       if in_slice (len a) r0 r1 i
       then imap_from
              (fun j x =>
                 if in_slice (len row) c0 c1 j
                 then match zth b (i - slice_index (len a) r0) with
                      | Some brow =>
                          match zth brow (j - slice_index (len row) c0) with
                          | Some y => y
                          | None => x
                          end
                      | None => x
                      end
                 else x)
              0 row
       else row)
    0 a.

(** [a[r0:r1, c0:c1, :]] *)
Definition crop {A} (a : array2 A) (r0 r1 c0 c1 : Z) : array2 A :=
  map (fun row => py_slice row c0 c1) (py_slice a r0 r1).

(** ** parse_args *)

(** The namespace argparse hands back.  Options the model never reads
    (learning-rate schedule, Adam constants, logging, precision) are left out. *)
Record Namespace : Type := {
  alpha : Q;
  eps : Q;
  instance_data_dir : option string;
  class_data_dir : option string;
  instance_prompt : option string;
  class_prompt : option string;
  with_prior_preservation : bool;
  prior_loss_weight : Q;
  num_class_images : Z;
  output_dir : string;
  resolution : Z;
  center_crop : bool;
  max_train_steps : Z;
  checkpointing_steps : Z;
  concepts_list : option string;
  local_rank : Z;
  hflip : bool;
  noaug : bool
}.

Definition set_local_rank (ns : Namespace) (r : Z) : Namespace :=
  {| alpha := alpha ns; eps := eps ns;
     instance_data_dir := instance_data_dir ns; class_data_dir := class_data_dir ns;
     instance_prompt := instance_prompt ns; class_prompt := class_prompt ns;
     with_prior_preservation := with_prior_preservation ns;
     prior_loss_weight := prior_loss_weight ns;
     num_class_images := num_class_images ns; output_dir := output_dir ns;
     resolution := resolution ns; center_crop := center_crop ns;
     max_train_steps := max_train_steps ns;
     checkpointing_steps := checkpointing_steps ns;
     concepts_list := concepts_list ns; local_rank := r;
     hflip := hflip ns; noaug := noaug ns |}.

(** What [os.environ.get("LOCAL_RANK", -1)] finds, seen through [int()]:
    nothing, a string [int()] reads as [z], or a string it refuses. *)
Inductive environ_value : Type :=
| Unset
| IntLiteral (z : Z)
| NotAnInt (s : string).

(** [int(os.environ.get(name, default))] *)
Definition int_of_environ (v : environ_value) (default : Z) : result Z :=
  match v with
  | Unset => Ok default
  | IntLiteral z => Ok z
  | NotAnInt s => Raise (ValueError "invalid literal for int() with base 10")
  end.

Definition is_None {A} (o : option A) : bool :=
  match o with None => true | Some _ => false end.

Definition warn_class_data_dir : string :=
  "You need not use --class_data_dir without --with_prior_preservation.".
Definition warn_class_prompt : string :=
  "You need not use --class_prompt without --with_prior_preservation.".

(** [parse_args] from line 497 on: [ns] is what [parser.parse_args] returned.
    The result carries the warnings issued. *)
Definition parse_args (ns : Namespace) (LOCAL_RANK : environ_value)
  : result (Namespace * list string) :=
  env_local_rank <- int_of_environ LOCAL_RANK (-1) ;;
  let args :=
    if negb (env_local_rank =? -1) && negb (env_local_rank =? local_rank ns)
    then set_local_rank ns env_local_rank
    else ns in
  if with_prior_preservation args then
    if is_None (concepts_list args) then
      if is_None (class_data_dir args) then
        Raise (ValueError "You must specify a data directory for class images.")
      else if is_None (class_prompt args) then
        Raise (ValueError "You must specify prompt for class images.")
      else Ok (args, [])
    else Ok (args, [])
  else
    let w1 := if is_None (class_data_dir args) then [] else [warn_class_data_dir] in
    let w2 := if is_None (class_prompt args) then [] else [warn_class_prompt] in
    Ok (args, w1 ++ w2).

(** The condition of the validation block under which it raises. *)
Definition prior_args_missing (ns : Namespace) : Prop :=
  with_prior_preservation ns = true /\
  concepts_list ns = None /\
  (class_data_dir ns = None \/ class_prompt ns = None).

(** ** External imaging and tokenization *)

Definition shape2 {A} (a : array2 A) (rows cols : Z) : Prop :=
  len a = rows /\ Forall (fun row => len row = cols) a.

Definition shape3 {A} (a : array3 A) (rows cols chans : Z) : Prop :=
  len a = rows /\
  Forall (fun row => len row = cols /\ Forall (fun px => len px = chans) row) a.

Definition is_uint8 (v : Z) : Prop := 0 <= v <= 255.

(** PIL, torchvision's geometric transforms and the tokenizer, as the
    script calls them.  Arrays of pixels are height x width x channel. *)
Class Imaging : Type := {
  Image : Type;
  (** [Image.open(path)], converted to RGB *)
  image_open : string -> Image;
  (** [transforms.RandomHorizontalFlip(0.5 * hflip)] *)
  random_flip : Image -> Image;
  (** [np.array(image.resize((scale, scale), resample)).astype(np.uint8)] *)
  resize : Image -> Z -> result (array3 Z);
  (** the flip, [Resize(size)] and the crop of [image_transforms], read as
      bytes the way [ToTensor] reads them *)
  resize_crop : Z -> bool -> Image -> array3 Z;
  (** [tokenizer(prompt, ...).input_ids] *)
  tokenizer : string -> list Z;
  resize_shape : forall im s, 0 < s ->
    exists a, resize im s = Ok a /\ shape3 a s s 3;
  resize_crop_uint8 : forall size cc im,
    Forall (Forall (Forall is_uint8)) (resize_crop size cc im)
}.

Definition Qlt_bool (a b : Q) : bool := negb (Qle_bool b a).

(** [int(x)] on a float: truncation towards zero *)
Definition py_int (x : Q) : Z :=
  if Qle_bool 0 x then Qfloor x else Qceiling x.

(** [t.permute(2, 0, 1)] on a height x width x 3 array *)
Definition permute_2_0_1 (a : array3 Q) : array3 Q :=
  map (fun c => map (map (fun px => nth c px 0%Q)) a) [0%nat; 1%nat; 2%nat].

(** [transforms.ToTensor()]: bytes to [0, 1], channel first *)
Definition ToTensor (a : array3 Z) : array3 Q :=
  permute_2_0_1 (map (map (map (fun v => (inject_Z v / 255)%Q))) a).

(** [transforms.Normalize([0.5], [0.5])] *)
Definition Normalize (t : array3 Q) : array3 Q :=
  map (map (map (fun x => ((x - (1 # 2)) / (1 # 2))%Q))) t.

(** The random draws one call of [__getitem__] or [get_one_mask] consumes. *)
Record Draws : Type := {
  uniform : Q;
  raw_scale : Z;
  raw_top : Z;
  raw_left : Z;
  raw_choice : Z
}.

Module CustomDiffusionDataset.

Record t : Type := {
  size : Z;
  mask_size : Z;
  center_crop : bool;
  aug : bool;
  with_prior_preservation : bool;
  instance_images_path : list (string * string);
  class_images_path : list (string * string);
  num_instance_images : Z;
  num_class_images : Z;
  _length : Z
}.

(** One entry of [concepts_list] with its directories already listed:
    the files of [instance_data_dir], and [class_images_path] zipped with
    [class_prompt]. *)
Record Concept : Type := {
  instance_prompt : string;
  instance_files : list string;
  class_pairs : list (string * string)
}.

(** [__init__]; [shuffle] is the permutation [random.shuffle] applies. *)
Definition __init__ (concepts_list : list Concept) (size mask_size : Z)
    (center_crop with_prior_preservation : bool) (num_class_images : Z)
    (aug : bool) (shuffle : list (string * string) -> list (string * string)) : t :=
  let instance_images_path :=
    shuffle
      (flat_map
         (fun concept =>
            map (fun x => (x, instance_prompt concept)) (instance_files concept))
         concepts_list) in
  let class_images_path :=
    flat_map
      (fun concept =>
         if with_prior_preservation
         then py_slice (class_pairs concept) 0 num_class_images
         else [])
      concepts_list in
  {| size := size;
     mask_size := mask_size;
     center_crop := center_crop;
     aug := aug;
     with_prior_preservation := with_prior_preservation;
     instance_images_path := instance_images_path;
     class_images_path := class_images_path;
     num_instance_images := len instance_images_path;
     num_class_images := len class_images_path;
     _length := Z.max (len class_images_path) (len instance_images_path) |}.

Definition __len__ (self : t) : Z := _length self.

Section WithImaging.
Context `{img : Imaging}.

(** The offset [np.random.randint(0, outer - inner + 1)] of [preprocess]. *)
Definition offset (self : t) (scale raw : Z) : result Z :=
  let '(outer, inner) :=
    if scale >? size self then (scale, size self) else (size self, scale) in
  np_random_randint raw 0 (outer - inner + 1).

Definition preprocess (self : t) (image : Image) (scale : Z) (d : Draws)
  : result (array3 Q * array2 Q) :=
  let '(outer, inner) :=
    if scale >? size self then (scale, size self) else (size self, scale) in
  factor <- py_floordiv (size self) (mask_size self) ;;
  top <- offset self scale (raw_top d) ;;
  left <- offset self scale (raw_left d) ;;
  image <- resize image scale ;;
  let image := map (map (map (fun v => (inject_Z v / (255 # 2) - 1)%Q))) image in
  instance_image <- np_zeros3 (size self) (size self) 3 ;;
  m <- py_floordiv (size self) factor ;;
  mask <- np_zeros2 m m ;;
  if scale >? size self then
    ones <- np_ones2 m m ;;
    Ok (crop image top (top + inner) left (left + inner), ones)
  else
    Ok (assign_block instance_image top (top + inner) left (left + inner) image,
        assign_scalar2 mask
          (top / factor + 1) ((top + scale) / factor - 1)
          (left / factor + 1) ((left + scale) / factor - 1) 1%Q).

(** The scale both [__getitem__] and [get_one_mask] draw. *)
Definition random_scale (self : t) (d : Draws) : result Z :=
  if aug self then
    if Qlt_bool (uniform d) (66 # 100)
    then np_random_randint (raw_scale d) (size self / 3) (size self + 1)
    else np_random_randint (raw_scale d)
           (py_int ((12 # 10) * inject_Z (size self)))
           (py_int ((14 # 10) * inject_Z (size self)))
  else Ok (size self).

Definition choice (raw : Z) (a b : string) : string :=
  if raw mod 2 =? 0 then a else b.

Record Example : Type := {
  instance_images : array3 Q;
  mask : array2 Q;
  instance_prompt_ids : list Z;
  class_images : option (array3 Q);
  class_mask : option (array2 Q);
  class_prompt_ids : option (list Z)
}.

Definition ones_like (m : array2 Q) : array2 Q := map (map (fun _ => 1%Q)) m.

Definition image_transforms (self : t) (im : Image) : array3 Q :=
  Normalize (ToTensor (resize_crop (size self) (center_crop self) im)).

(** [self.instance_images_path[index % self.num_instance_images]] *)
Definition instance_entry (self : t) (index : Z) : result (string * string) :=
  i <- py_mod index (num_instance_images self) ;;
  py_getitem (instance_images_path self) i.

(** [self.class_images_path[index % self.num_class_images]] *)
Definition class_entry (self : t) (index : Z) : result (string * string) :=
  j <- py_mod index (num_class_images self) ;;
  py_getitem (class_images_path self) j.

Definition __getitem__ (self : t) (index : Z) (d : Draws) : result Example :=
  entry <- instance_entry self index ;;
  let '(instance_image, instance_prompt) := entry in
  let instance_image := random_flip (image_open instance_image) in
  random_scale <- random_scale self d ;;
  pm <- preprocess self instance_image random_scale d ;;
  let '(instance_image, mask) := pm in
  let instance_prompt :=
    if Qlt_bool (inject_Z random_scale) ((6 # 10) * inject_Z (size self))
    then (choice (raw_choice d) "a far away " "very small " ++ instance_prompt)%string
    else if random_scale >? size self
    then (choice (raw_choice d) "zoomed in " "close up " ++ instance_prompt)%string
    else instance_prompt in
  if with_prior_preservation self then
    centry <- class_entry self index ;;
    let '(class_image, class_prompt) := centry in
    Ok {| instance_images := permute_2_0_1 instance_image;
          mask := mask;
          instance_prompt_ids := tokenizer instance_prompt;
          class_images := Some (image_transforms self (image_open class_image));
          class_mask := Some (ones_like mask);
          class_prompt_ids := Some (tokenizer class_prompt) |}
  else
    Ok {| instance_images := permute_2_0_1 instance_image;
          mask := mask;
          instance_prompt_ids := tokenizer instance_prompt;
          class_images := None;
          class_mask := None;
          class_prompt_ids := None |}.

End WithImaging.

End CustomDiffusionDataset.

(** ** Tensors *)

Fixpoint map2 {A B C} (f : A -> B -> C) (l1 : list A) (l2 : list B) : list C :=
  match l1, l2 with
  | x :: t1, y :: t2 => f x y :: map2 f t1 t2
  | _, _ => []
  end.

Definition t2_map2 (f : Q -> Q -> Q) : array2 Q -> array2 Q -> array2 Q :=
  map2 (map2 f).
Definition t3_map2 (f : Q -> Q -> Q) : array3 Q -> array3 Q -> array3 Q :=
  map2 (t2_map2 f).
Definition t4_map2 (f : Q -> Q -> Q) : array4 Q -> array4 Q -> array4 Q :=
  map2 (t3_map2 f).
Definition t4_map (f : Q -> Q) : array4 Q -> array4 Q :=
  map (map (map (map f))).

Definition sum1 (l : list Q) : Q := fold_right Qplus 0%Q l.
Definition sum2 (a : array2 Q) : Q := sum1 (map sum1 a).
Definition sum3 (a : array3 Q) : Q := sum1 (map sum2 a).
Definition sum4 (a : array4 Q) : Q := sum1 (map sum3 a).

Definition numel1 (l : list Q) : Z := len l.
Definition numel2 (a : array2 Q) : Z := fold_right Z.add 0 (map numel1 a).
Definition numel3 (a : array3 Q) : Z := fold_right Z.add 0 (map numel2 a).
Definition numel4 (a : array4 Q) : Z := fold_right Z.add 0 (map numel3 a).

(** [t.mean()] of a vector and of a 4-d tensor *)
Definition mean1 (l : list Q) : Q := (sum1 l / inject_Z (numel1 l))%Q.
Definition mean4 (a : array4 Q) : Q := (sum4 a / inject_Z (numel4 a))%Q.

(** [torch.sign] *)
Definition sign (x : Q) : Q := inject_Z (Z.sgn (Qnum x)).

(** [torch.clamp(x, min=lo, max=hi)]: [min(max(x, lo), hi)], so [hi] wins
    when [lo > hi]. *)
Definition clamp (lo hi x : Q) : Q := Qmin (Qmax x lo) hi.

(** [F.mse_loss(pred, target, reduction="none")] *)
Definition mse_loss_none (pred target : array4 Q) : array4 Q :=
  t4_map2 (fun a b => ((a - b) * (a - b))%Q) pred target.

(** [F.mse_loss(pred, target, reduction="mean")] *)
Definition mse_loss_mean (pred target : array4 Q) : Q :=
  mean4 (mse_loss_none pred target).

(** [torch.chunk(x, 2, dim=0)]: chunks of [ceil(n / 2)] rows; a single
    chunk when there are fewer than two rows. *)
Definition torch_chunk2 {A} (x : list A) : list (list A) :=
  let k := Z.to_nat ((len x + 1) / 2) in
  if len x <=? 1 then [x] else [firstn k x; skipn k x].

(** [a, b = chunks] *)
Definition unpack2 {A} (chunks : list A) : result (A * A) :=
  match chunks with
  | [a; b] => Ok (a, b)
  | _ => Raise (ValueError "wrong number of values to unpack (expected 2)")
  end.

(** Broadcasting along the batch dimension: equal sizes pair up, a size of
    one is repeated, anything else is an error. *)
Definition broadcast_batch {A B} (xs : list A) (ys : list B) : result (list (A * B)) :=
  if len xs =? len ys then Ok (combine xs ys)
  else match xs, ys with
       | _, [y] => Ok (map (fun x => (x, y)) xs)
       | [x], _ => Ok (map (fun y => (x, y)) ys)
       | _, _ => Raise (RuntimeError "The size of tensor a must match the size of tensor b")
       end.

(** One image's [(loss * mask).sum([1, 2, 3]) / mask.sum([1, 2, 3])]: the
    mask has a single channel, which multiplies every channel of the loss.
    Latent and mask have the same height and width ([mask_size] is read off
    a latent), so rows and columns pair up. *)
Definition masked_sum (loss : array3 Q) (mask : array2 Q) : Q :=
  sum3 (map (fun channel => t2_map2 Qmult channel mask) loss).

Definition masked_ratio (lm : array3 Q * array2 Q) : Q :=
  (masked_sum (fst lm) (snd lm) / sum2 (snd lm))%Q.

(** ** The training loop of [main] *)

(** The optimizer over [custom_diffusion_layers.parameters()] and gradient
    clipping, as the accelerate harness provides them. *)
Class Trainer : Type := {
  Weights : Type;
  OptState : Type;
  optimizer_step : OptState -> Weights -> Weights -> OptState * Weights;
  clip_grad_norm : Weights -> Weights
}.

(** Scheduler configuration and process rank, fixed for a run. *)
Record Harness : Type := {
  prediction_type : string;
  is_main_process : bool
}.

(** Calls the loop makes on its collaborators and the files it writes. *)
Inductive Event : Type :=
| Backward (loss : Q)
| ClipGradNorm
| OptimizerStep
| LrSchedulerStep
| ZeroGrad
| SaveImages (global_step : Z) (files : list (string * array3 Z))
| Log (loss : Q) (global_step : Z).



(** [(img * 127.5 + 128).clamp(0, 255).to(torch.uint8)] on one element *)
Definition to_uint8_pixel (x : Q) : Z :=
  Qfloor (clamp 0 255 (x * (255 # 2) + 128)).

(** [t.permute(1, 2, 0)] on a channel x height x width tensor *)
Definition permute_1_2_0 (a : array3 Z) : array3 Z :=
  let h := List.length (hd [] a) in
  let w := List.length (hd [] (hd [] a)) in
  map (fun y => map (fun x => map (fun ch => nth x (nth y ch []) 0) a) (seq 0 w))
      (seq 0 h).

(** [str(path).split("/")[-1]] *)
Fixpoint basename_from (acc s : string) : string :=
  match s with
  | EmptyString => acc
  | String c rest =>
      if Ascii.eqb c "/"%char then basename_from EmptyString rest
      else basename_from (acc ++ String c EmptyString)%string rest
  end.
Definition basename (s : string) : string := basename_from EmptyString s.

Section Training.
Context `{img : Imaging} `{trainer : Trainer}.

Record Frozen : Type := {
  vae : Weights;
  text_encoder : Weights;
  unet : Weights
}.

Record TrainState : Type := {
  pertubed_images : array4 Q;
  original_images : array4 Q;
  mask : list (array2 Q);
  custom_diffusion_layers : Weights;
  frozen : Frozen;
  optimizer : OptState;
  lr_scheduler : Z;
  global_step : Z;
  trace : list Event
}.

(** What the frozen pipeline and autograd return in one iteration:
    [unet(...).sample], the sampled noise, [get_velocity(...)], the
    gradients left by [accelerator.backward(loss)] on the images and on
    the adapter, and [accelerator.sync_gradients]. *)
Record Observation : Type := {
  model_pred : array4 Q;
  noise : array4 Q;
  velocity : array4 Q;
  images_grad : array4 Q;
  layers_grad : Weights;
  sync_gradients : bool
}.

(** [get_one_mask] *)
Definition get_one_mask (args : Namespace) (train_dataset : CustomDiffusionDataset.t)
    (image : Image) (d : Draws) : result (array2 Q) :=
  random_scale <- CustomDiffusionDataset.random_scale train_dataset d ;;
  pm <- CustomDiffusionDataset.preprocess train_dataset image random_scale d ;;
  let one_mask := snd pm in
  if with_prior_preservation args then
    let class_mask := CustomDiffusionDataset.ones_like one_mask in
    Ok (t2_map2 Qplus one_mask class_mask)
  else Ok one_mask.

Fixpoint mask_list (args : Namespace) (train_dataset : CustomDiffusionDataset.t)
    (images : list Image) (draws : nat -> Draws) (k : nat) : result (list (array2 Q)) :=
  match images with
  | [] => Ok []
  | image :: rest =>
      m <- get_one_mask args train_dataset image (draws k) ;;
      ms <- mask_list args train_dataset rest draws (S k) ;;
      Ok (m :: ms)
  end.

(** [torch.stack]: refuses an empty list. *)
Definition torch_stack {A} (l : list A) : result (list A) :=
  match l with
  | [] => Raise (RuntimeError "stack expects a non-empty TensorList")
  | _ => Ok l
  end.

(** Lines 790-828 and 853: the state the loop starts from. *)
Definition prepare (args : Namespace) (train_dataset : CustomDiffusionDataset.t)
    (layers : Weights) (fz : Frozen) (opt : OptState) (draws : nat -> Draws)
  : result TrainState :=
  let paths := map fst (CustomDiffusionDataset.instance_images_path train_dataset) in
  pertubed <- torch_stack
    (map (fun p => CustomDiffusionDataset.image_transforms train_dataset (image_open p))
         paths) ;;
  let original := pertubed in
  ml <- mask_list args train_dataset (map image_open paths) draws 0 ;;
  mask <- torch_stack ml ;;
  Ok {| pertubed_images := pertubed;
        original_images := original;
        mask := mask;
        custom_diffusion_layers := layers;
        frozen := fz;
        optimizer := opt;
        lr_scheduler := 0;
        global_step := 0;
        trace := [] |}.

(** Lines 915-920 *)
Definition loss_target (h : Harness) (o : Observation) : result (array4 Q) :=
  if String.eqb (prediction_type h) "epsilon" then Ok (noise o)
  else if String.eqb (prediction_type h) "v_prediction" then Ok (velocity o)
  else Raise (ValueError ("Unknown prediction type " ++ prediction_type h)).

(** Lines 925-944: the loss and the rebound [mask]. *)
Definition compute_loss (args : Namespace) (model_pred target : array4 Q)
    (mask : list (array2 Q)) : result (Q * list (array2 Q)) :=
  if with_prior_preservation args then
    pp <- unpack2 (torch_chunk2 model_pred) ;;
    tt <- unpack2 (torch_chunk2 target) ;;
    let '(model_pred, model_pred_prior) := pp in
    let '(target, target_prior) := tt in
    let mask := hd [] (torch_chunk2 mask) in
    let loss := mse_loss_none model_pred target in
    pairs <- broadcast_batch loss mask ;;
    let loss := mean1 (map masked_ratio pairs) in
    let prior_loss := mse_loss_mean model_pred_prior target_prior in
    Ok ((loss + prior_loss_weight args * prior_loss)%Q, mask)
  else
    let loss := mse_loss_none model_pred target in
    Ok (mean4 loss, mask).

(** Lines 959-961 *)
Definition pgd_update (alpha eps : Q) (pertubed_images grad original_images : array4 Q)
  : array4 Q :=
  let adv_images :=
    t4_map2 Qplus pertubed_images (t4_map (fun g => (alpha * sign g)%Q) grad) in
  let eta := t4_map (clamp (- eps) eps) (t4_map2 Qminus adv_images original_images) in
  t4_map (clamp (- 1) 1) (t4_map2 Qplus original_images eta).

(** Lines 977-985: the files of one checkpoint. *)
Definition noised_files (train_dataset : CustomDiffusionDataset.t)
    (pertubed_images : array4 Q) : list (string * array3 Z) :=
  let img_names :=
    map (fun instance_path => basename (fst instance_path))
        (CustomDiffusionDataset.instance_images_path train_dataset) in
  map (fun '(img_pixel, img_name) =>
         (img_name, permute_1_2_0 (map (map (map to_uint8_pixel)) img_pixel)))
      (combine pertubed_images img_names).

(** One pass of the body of [for epoch in range(first_epoch, max_train_steps)].
    The inner [for _ in range(1)] runs its body once; the [break] at its
    end leaves only that inner loop. *)
Definition train_iteration (args : Namespace) (h : Harness)
    (train_dataset : CustomDiffusionDataset.t) (s : TrainState) (o : Observation)
  : result TrainState :=
  target <- loss_target h o ;;
  lm <- compute_loss args (model_pred o) target (mask s) ;;
  let '(loss, mask) := lm in
  let tr := trace s ++ [Backward loss] in
  let '(tr, grads) :=
    if sync_gradients o
    then (tr ++ [ClipGradNorm], clip_grad_norm (layers_grad o))
    else (tr, layers_grad o) in
  let pertubed_images :=
    pgd_update (alpha args) (eps args)
      (pertubed_images s) (images_grad o) (original_images s) in
  let '(optimizer, layers) :=
    optimizer_step (optimizer s) (custom_diffusion_layers s) grads in
  let tr := tr ++ [OptimizerStep; LrSchedulerStep; ZeroGrad] in
  let lr_scheduler := lr_scheduler s + 1 in
  gt <-
    (if sync_gradients o then
       let global_step := global_step s + 1 in
       r <- py_mod global_step (checkpointing_steps args) ;;
       if (r =? 0) && is_main_process h
       then Ok (global_step,
                tr ++ [SaveImages global_step (noised_files train_dataset pertubed_images)])
       else Ok (global_step, tr)
     else Ok (global_step s, tr)) ;;
  let '(global_step, tr) := gt in
  Ok {| pertubed_images := pertubed_images;
        original_images := original_images s;
        mask := mask;
        custom_diffusion_layers := layers;
        frozen := frozen s;
        optimizer := optimizer;
        lr_scheduler := lr_scheduler;
        global_step := global_step;
        trace := tr ++ [Log loss global_step] |}.

(** [n] passes of the loop, the first one being epoch [epoch]. *)
Fixpoint train_loop (args : Namespace) (h : Harness)
    (train_dataset : CustomDiffusionDataset.t) (obs : nat -> Observation)
    (epoch n : nat) (s : TrainState) : result TrainState :=
  match n with
  | O => Ok s
  | S n' =>
      s' <- train_iteration args h train_dataset s (obs epoch) ;;
      train_loop args h train_dataset obs (S epoch) n' s'
  end.


End Training.

(** ** Properties stated about the code *)

Definition binary (x : Q) : Prop := x = 0%Q \/ x = 1%Q.


(** Element [(i, j)] of a two-dimensional array (of pixels or of numbers) *)
Definition px {A} (a : array2 A) (i j : Z) : option A :=
  match zth a i with
  | Some row => zth row j
  | None => None
  end.



(** The ones of the mask lie in [r0, r1) x [c0, c1); the rest is zero. *)
Definition ones_exactly_inside (m : array2 Q) (r0 r1 c0 c1 : Z) : Prop :=
  forall i j x, px m i j = Some x ->
    (r0 <= i < r1 /\ c0 <= j < c1 -> x = 1%Q) /\
    (~ (r0 <= i < r1 /\ c0 <= j < c1) -> x = 0%Q).


(** The pixel values [preprocess] computes from the resized bytes. *)
Definition rescaled (bytes : array3 Z) : array3 Q :=
  map (map (map (fun v => (inject_Z v / (255 # 2) - 1)%Q))) bytes.




(** The update of one element, in the words of the PGD recipe. *)
Definition pgd_element (alpha eps x g o : Q) : Q :=
  let adv := (x + alpha * sign g)%Q in
  let eta := clamp (- eps) eps (adv - o) in
  clamp (- (1)) 1 (o + eta).

Definition get4 {A} (a : array4 A) (i j k l : nat) : option A :=
  match nth_error a i with
  | Some a3 =>
      match nth_error a3 j with
      | Some a2 =>
          match nth_error a2 k with
          | Some a1 => nth_error a1 l
          | None => None
          end
      | None => None
      end
  | None => None
  end.





(** Three lists walked together; the PGD update is one such walk. *)
Fixpoint map3 {A B C D} (f : A -> B -> C -> D)
    (l1 : list A) (l2 : list B) (l3 : list C) : list D :=
  match l1, l2, l3 with
  | x :: t1, y :: t2, z :: t3 => f x y z :: map3 f t1 t2 t3
  | _, _, _ => []
  end.

Definition t4_map3 (f : Q -> Q -> Q -> Q) : array4 Q -> array4 Q -> array4 Q -> array4 Q :=
  map3 (map3 (map3 (map3 f))).

(** The pixel range, and the range [ToTensor] produces. *)
Definition pixel_range (o : Q) : Prop := (- (1) <= o /\ o <= 1)%Q.

Definition unit_range (x : Q) : Prop := (0 <= x /\ x <= 1)%Q.

Section LoopSpec.
Context `{trainer : Trainer}.

(** The gradients [optimizer.step()] consumes. *)
Definition step_grads (o : Observation) : Weights :=
  if sync_gradients o then clip_grad_norm (layers_grad o) else layers_grad o.

(** The events one iteration appends to the trace. *)
Definition iteration_events (h : Harness) (train_dataset : CustomDiffusionDataset.t)
    (sync : bool) (loss : Q) (gs r : Z) (pertubed : array4 Q) : list Event :=
  if sync then
    [Backward loss; ClipGradNorm; OptimizerStep; LrSchedulerStep; ZeroGrad] ++
    (if (r =? 0) && is_main_process h
     then [SaveImages gs (noised_files train_dataset pertubed)] else []) ++
    [Log loss gs]
  else [Backward loss; OptimizerStep; LrSchedulerStep; ZeroGrad; Log loss gs].

(** The frame of a pass as C6 words it: of the state the loop carries,
    only the perturbed tensor and the adapter weights change. *)
Definition only_images_and_adapter_change (s s' : TrainState) : Prop :=
  original_images s' = original_images s /\
  frozen s' = frozen s /\
  mask s' = mask s /\
  optimizer s' = optimizer s /\
  lr_scheduler s' = lr_scheduler s /\
  global_step s' = global_step s.

(** The passes among the first [n] on which the harness synchronised. *)
Definition synced_passes (obs : nat -> Observation) (n : nat) : nat :=
  List.length (filter (fun epoch => sync_gradients (obs epoch)) (seq 0 n)).

End LoopSpec.

(** ** Stand-ins for the collaborators, for the worked examples *)

(** A flat gray picture of any size: an image is its gray level. *)
Definition gray (v : Z) : Z := Z.max 0 (Z.min v 255).

Definition flat_pixels (rows cols : Z) (v : Z) : array3 Z :=
  repeat (repeat (repeat (gray v) 3) (Z.to_nat cols)) (Z.to_nat rows).

Definition flat_resize (im scale : Z) : result (array3 Z) :=
  if scale <=? 0 then Raise (ValueError "height and width must be > 0")
  else Ok (flat_pixels scale scale im).

Lemma len_repeat {A} (x : A) (n : nat) : len (repeat x n) = Z.of_nat n.
Proof. unfold len. now rewrite repeat_length. Qed.

Lemma Forall_repeat {A} (P : A -> Prop) (x : A) (n : nat) :
  P x -> Forall P (repeat x n).
Proof. intros Hx. induction n; simpl; constructor; auto. Qed.

Lemma flat_resize_shape (im s : Z) :
  0 < s -> exists a, flat_resize im s = Ok a /\ shape3 a s s 3.
Proof.
  intros Hs. unfold flat_resize.
  destruct (s <=? 0) eqn:E; [apply Z.leb_le in E; lia|].
  eexists; split; [reflexivity|].
  unfold shape3, flat_pixels. split.
  - rewrite len_repeat. lia.
  - apply Forall_repeat. split.
    + rewrite len_repeat. lia.
    + apply Forall_repeat. reflexivity.
Qed.

Lemma gray_uint8 (v : Z) : is_uint8 (gray v).
Proof. unfold is_uint8, gray. lia. Qed.

Lemma flat_pixels_uint8 (size : Z) (cc : bool) (im : Z) :
  Forall (Forall (Forall is_uint8)) (flat_pixels size size im).
Proof. unfold flat_pixels. do 3 apply Forall_repeat. apply gray_uint8. Qed.

#[export] Instance flat_imaging : Imaging := {|
  Image := Z;
  image_open := fun path => 3 * Z.of_nat (String.length path);
  random_flip := fun im => im;
  resize := flat_resize;
  resize_crop := fun size _ im => flat_pixels size size im;
  tokenizer := fun prompt => [Z.of_nat (String.length prompt)];
  resize_shape := flat_resize_shape;
  resize_crop_uint8 := flat_pixels_uint8
|}.

(** Plain gradient descent on a single integer weight. *)
#[export] Instance sgd_trainer : Trainer := {|
  Weights := Z;
  OptState := Z;
  optimizer_step := fun st w g => (st + 1, w - g);
  clip_grad_norm := fun g => Z.max (-1) (Z.min g 1)
|}.

Definition example_args : Namespace :=
  {| alpha := 5 # 1000; eps := 1 # 10;
     instance_data_dir := Some "data/person"%string; class_data_dir := None;
     instance_prompt := Some "photo of a sks person"%string; class_prompt := None;
     with_prior_preservation := false; prior_loss_weight := 1;
     num_class_images := 200; output_dir := "outputs"%string;
     resolution := 32; center_crop := false;
     max_train_steps := 4; checkpointing_steps := 2;
     concepts_list := None; local_rank := -1;
     hflip := false; noaug := true |}.

(** The same run with [--with_prior_preservation] and its two options. *)
Definition example_prior_args : Namespace :=
  {| alpha := 5 # 1000; eps := 1 # 10;
     instance_data_dir := Some "data/person"%string;
     class_data_dir := Some "data/class"%string;
     instance_prompt := Some "photo of a sks person"%string;
     class_prompt := Some "a person"%string;
     with_prior_preservation := true; prior_loss_weight := 1;
     num_class_images := 200; output_dir := "outputs"%string;
     resolution := 32; center_crop := false;
     max_train_steps := 4; checkpointing_steps := 2;
     concepts_list := None; local_rank := -1;
     hflip := false; noaug := true |}.

(** [--class_prompt] given without [--with_prior_preservation]. *)
Definition example_stray_args : Namespace :=
  {| alpha := 5 # 1000; eps := 1 # 10;
     instance_data_dir := Some "data/person"%string; class_data_dir := None;
     instance_prompt := Some "photo of a sks person"%string;
     class_prompt := Some "a person"%string;
     with_prior_preservation := false; prior_loss_weight := 1;
     num_class_images := 200; output_dir := "outputs"%string;
     resolution := 32; center_crop := false;
     max_train_steps := 4; checkpointing_steps := 2;
     concepts_list := None; local_rank := -1;
     hflip := false; noaug := true |}.

Definition example_concepts : list CustomDiffusionDataset.Concept :=
  [ {| CustomDiffusionDataset.instance_prompt := "photo of a sks person";
       CustomDiffusionDataset.instance_files := ["data/person/a.jpg"; "data/person/bb.jpg"];
       CustomDiffusionDataset.class_pairs :=
         [("data/class/0.jpg", "a person"); ("data/class/1.jpg", "a person");
          ("data/class/2.jpg", "a person")] |} ]%string.

Definition example_dataset (prior aug : bool) : CustomDiffusionDataset.t :=
  CustomDiffusionDataset.__init__ example_concepts 32 4 false prior 200 aug (fun l => l).

Definition example_draws : Draws :=
  {| uniform := 1 # 2; raw_scale := 7; raw_top := 0; raw_left := 0; raw_choice := 0 |}.

(** A small run: two images of 8 x 8 pixels. *)
Definition tiny_dataset (prior : bool) : CustomDiffusionDataset.t :=
  CustomDiffusionDataset.__init__ example_concepts 8 4 false prior 200 false (fun l => l).

Definition const4 (n c h w : nat) (v : Q) : array4 Q :=
  repeat (repeat (repeat (repeat v w) h) c) n.

Definition example_harness : Harness :=
  {| prediction_type := "epsilon"; is_main_process := true |}.

Definition example_frozen : Frozen := {| vae := 11; text_encoder := 12; unet := 13 |}.

(** Two images of 8 x 8 pixels, latents of 4 x 4; every gradient points up. *)
Definition example_obs (epoch : nat) : Observation :=
  {| model_pred := const4 2 4 4 4 (1 # 2);
     noise := const4 2 4 4 4 0;
     velocity := const4 2 4 4 4 (1 # 4);
     images_grad := const4 2 3 8 8 (Z.of_nat (S epoch) # 7);
     layers_grad := 3;
     sync_gradients := true |}.

Definition example_prepare (args : Namespace) : result TrainState :=
  prepare args (tiny_dataset (with_prior_preservation args)) 100 example_frozen 0
    (fun _ => example_draws).

Definition example_run (args : Namespace) (n : nat) : result TrainState :=
  s0 <- example_prepare args ;;
  train_loop args example_harness (tiny_dataset (with_prior_preservation args))
    example_obs 0 n s0.

(** ** Further notions and examples *)

(** The example's files as a shuffle that reverses them leaves them, with
    at most two class images per concept. *)
Definition example_shuffled_dataset : CustomDiffusionDataset.t :=
  CustomDiffusionDataset.__init__ example_concepts 32 4 false true 2 false
    (@rev (string * string)).

(** A dataset whose mask would be finer than its pictures. *)
Definition example_coarse_dataset : CustomDiffusionDataset.t :=
  CustomDiffusionDataset.__init__ example_concepts 32 64 false false 200 false (fun l => l).







(** The example run with [--checkpointing_steps 0]. *)
Definition example_no_checkpoint_args : Namespace :=
  {| alpha := 5 # 1000; eps := 1 # 10;
     instance_data_dir := Some "data/person"%string; class_data_dir := None;
     instance_prompt := Some "photo of a sks person"%string; class_prompt := None;
     with_prior_preservation := false; prior_loss_weight := 1;
     num_class_images := 200; output_dir := "outputs"%string;
     resolution := 32; center_crop := false;
     max_train_steps := 4; checkpointing_steps := 0;
     concepts_list := None; local_rank := -1;
     hflip := false; noaug := true |}.

(** A scheduler configured for a prediction type the script does not know. *)
Definition example_sample_harness : Harness :=
  {| prediction_type := "sample"; is_main_process := true |}.

(** Five images of 8 x 8 pixels, for runs with prior preservation. *)
Definition five_concepts : list CustomDiffusionDataset.Concept :=
  [ {| CustomDiffusionDataset.instance_prompt := "photo of a sks person";
       CustomDiffusionDataset.instance_files :=
         ["data/person/a.jpg"; "data/person/b.jpg"; "data/person/c.jpg";
          "data/person/d.jpg"; "data/person/e.jpg"];
       CustomDiffusionDataset.class_pairs :=
         [("data/class/0.jpg", "a person"); ("data/class/1.jpg", "a person")] |} ]%string.

Definition five_dataset : CustomDiffusionDataset.t :=
  CustomDiffusionDataset.__init__ five_concepts 8 4 false true 200 false (fun l => l).

Definition five_obs (epoch : nat) : Observation :=
  {| model_pred := const4 5 4 4 4 (1 # 2);
     noise := const4 5 4 4 4 0;
     velocity := const4 5 4 4 4 (1 # 4);
     images_grad := const4 5 3 8 8 (Z.of_nat (S epoch) # 7);
     layers_grad := 3;
     sync_gradients := true |}.

Definition five_prepare : result TrainState :=
  prepare example_prior_args five_dataset 100 example_frozen 0 (fun _ => example_draws).

(** A batch of one image. *)
Definition single_obs : Observation :=
  {| model_pred := const4 1 4 4 4 (1 # 2);
     noise := const4 1 4 4 4 0;
     velocity := const4 1 4 4 4 (1 # 4);
     images_grad := const4 1 3 8 8 (1 # 7);
     layers_grad := 3;
     sync_gradients := true |}.


(** A channel x height x width tensor of the given sizes. *)
Definition chw_shape {A} (t : array3 A) (chans rows cols : Z) : Prop :=
  len t = chans /\ Forall (fun channel => shape2 channel rows cols) t.

(** The prefixes [__getitem__] may put before the instance prompt. *)
Definition prompt_prefixes : list string :=
  [EmptyString; "a far away "; "very small "; "zoomed in "; "close up "]%string.

(** The elements of [m] are [vin] on [r0, r1) x [c0, c1) and [vout]
    elsewhere. *)
Definition values_inside (m : array2 Q) (r0 r1 c0 c1 : Z) (vin vout : Q) : Prop :=
  forall i j x, px m i j = Some x ->
    (r0 <= i < r1 /\ c0 <= j < c1 -> x = vin) /\
    (~ (r0 <= i < r1 /\ c0 <= j < c1) -> x = vout).



(** *** The attention processors of [main] *)

(** [name.startswith(prefix)] *)
Definition startswith (name prefix : string) : bool := String.prefix prefix name.

(** [s[i]] on a string, for an index that is not negative *)
Definition str_getitem (s : string) (i : nat) : result ascii :=
  match String.get i s with
  | Some c => Ok c
  | None => Raise IndexError
  end.

(** [int(c)] for a string of one character *)
Definition int_of_char (c : ascii) : result Z :=
  let n := Z.of_nat (nat_of_ascii c) in
  if (48 <=? n) && (n <=? 57) then Ok (n - 48)
  else Raise (ValueError "invalid literal for int() with base 10").

(** Lines 697-704: the value of [hidden_size] after the chain of tests for
    the processor [name]; [prev] is the value it had before, [None] when
    it was not bound yet. *)
Definition hidden_size (block_out_channels : list Z) (name : string) (prev : option Z)
  : result (option Z) :=
  if startswith name "mid_block" then
    x <- py_getitem block_out_channels (-1) ;;
    Ok (Some x)
  else if startswith name "up_blocks" then
    c <- str_getitem name (String.length "up_blocks.") ;;
    block_id <- int_of_char c ;;
    x <- py_getitem (rev block_out_channels) block_id ;;
    Ok (Some x)
  else if startswith name "down_blocks" then
    c <- str_getitem name (String.length "down_blocks.") ;;
    block_id <- int_of_char c ;;
    x <- py_getitem block_out_channels block_id ;;
    Ok (Some x)
  else Ok prev.

(** The digit [d] as a character. *)
Definition digit (d : Z) : ascii := ascii_of_nat (48 + Z.to_nat d).

(** The channels of the blocks of Stable Diffusion's U-Net. *)
Definition example_block_out_channels : list Z := [320; 640; 1280; 1280].

(** ** parse_args: when it raises *)

Lemma int_of_environ_ok (v : environ_value) (default : Z) :
  (forall s, v <> NotAnInt s) -> exists z, int_of_environ v default = Ok z.
Proof.
  intros Hv. destruct v as [|z|s]; simpl; eauto.
  exfalso. now apply (Hv s).
Qed.

(** C10, as amended.  With [LOCAL_RANK] unset or holding an integer,
    [parse_args] raises [ValueError] exactly when [--with_prior_preservation]
    is set, no [concepts_list] is given and [class_data_dir] or [class_prompt]
    is missing.  Without [--with_prior_preservation] it returns, and its
    warnings are exactly one for a supplied [class_data_dir] and one for a
    supplied [class_prompt]. *)
Theorem parse_args_raises_iff (ns : Namespace) (LOCAL_RANK : environ_value) :
  (forall s, LOCAL_RANK <> NotAnInt s) ->
  (raises_ValueError (parse_args ns LOCAL_RANK) <-> prior_args_missing ns) /\
  (with_prior_preservation ns = false ->
   exists args,
     parse_args ns LOCAL_RANK =
       Ok (args,
           (if is_None (class_data_dir ns) then [] else [warn_class_data_dir]) ++
           (if is_None (class_prompt ns) then [] else [warn_class_prompt]))).
Proof.
  intros Henv.
  destruct (int_of_environ_ok LOCAL_RANK (-1) Henv) as [z Hz].
  unfold parse_args. rewrite Hz. cbn [bind].
  set (args := if negb (z =? -1) && negb (z =? local_rank ns)
               then set_local_rank ns z else ns).
  assert (Hp : with_prior_preservation args = with_prior_preservation ns)
    by (subst args; destruct (_ && _); reflexivity).
  assert (Hc : concepts_list args = concepts_list ns)
    by (subst args; destruct (_ && _); reflexivity).
  assert (Hd : class_data_dir args = class_data_dir ns)
    by (subst args; destruct (_ && _); reflexivity).
  assert (Hq : class_prompt args = class_prompt ns)
    by (subst args; destruct (_ && _); reflexivity).
  rewrite Hp, Hc, Hd, Hq. unfold prior_args_missing, raises_ValueError.
  destruct (with_prior_preservation ns) eqn:Ep.
  - split; [|discriminate].
    destruct (concepts_list ns) eqn:Ec; simpl.
    + split; [intros [m Hm]; discriminate | intros (_ & H & _); discriminate].
    + destruct (class_data_dir ns) eqn:Ed; simpl.
      * destruct (class_prompt ns) eqn:Eq; simpl.
        -- split; [intros [m Hm]; discriminate|].
           intros (_ & _ & [H|H]); discriminate.
        -- split; [intros _; auto | intros _; eauto].
      * split; [intros _; auto | intros _; eauto].
  - split.
    + split; [intros [m Hm]; discriminate | intros (H & _); discriminate].
    + intros _. exists args. reflexivity.
Qed.

Lemma parse_args_raises_iff_witness :
  (raises_ValueError (parse_args example_stray_args (IntLiteral 3)) <->
   prior_args_missing example_stray_args) /\
  (exists args,
     parse_args example_stray_args (IntLiteral 3) = Ok (args, [warn_class_prompt])).
Proof.
  destruct (parse_args_raises_iff example_stray_args (IntLiteral 3)) as [H1 H2].
  - intros s. discriminate.
  - split; [exact H1 | apply H2; reflexivity].
Defined.

(** C10 as stated fails: with [LOCAL_RANK] set to a string that is not an
    integer, [int(...)] on line 497 raises [ValueError] although
    [--with_prior_preservation] is not set. *)
Lemma parse_args_raises_on_bad_local_rank :
  raises_ValueError (parse_args example_args (NotAnInt "auto")) /\
  ~ prior_args_missing example_args.
Proof.
  split.
  - eexists. reflexivity.
  - intros (H & _). discriminate.
Qed.

(** ** CustomDiffusionDataset: length and item access *)

Lemma py_getitem_in_range {A} (l : list A) (i : Z) :
  0 <= i < len l ->
  exists x, py_getitem l i = Ok x /\ nth_error l (Z.to_nat i) = Some x.
Proof.
  intros Hi. unfold py_getitem. cbv zeta.
  assert (E0 : (i <? 0) = false) by (apply Z.ltb_ge; lia).
  assert (E1 : (len l <=? i) = false) by (apply Z.leb_gt; lia).
  rewrite !E0, E1. cbn [orb].
  destruct (nth_error l (Z.to_nat i)) as [x|] eqn:En.
  - exists x. split; reflexivity.
  - apply nth_error_None in En. unfold len in Hi. lia.
Qed.

Lemma py_mod_pos (a n : Z) :
  0 < n -> py_mod a n = Ok (a mod n) /\ 0 <= a mod n < n.
Proof.
  intros Hn. unfold py_mod.
  destruct (n =? 0) eqn:E; [apply Z.eqb_eq in E; lia|].
  split; [reflexivity | apply Z.mod_pos_bound; lia].
Qed.

(** Indexing through [index % len(l)] never leaves the list, whatever the
    index; on an empty list the modulo raises before the list is read. *)
Lemma modular_access {A} (l : list A) (index : Z) :
  (i <- py_mod index (len l) ;; py_getitem l i) <> Raise IndexError /\
  (0 < len l ->
   exists x, (i <- py_mod index (len l) ;; py_getitem l i) = Ok x /\
             nth_error l (Z.to_nat (index mod len l)) = Some x).
Proof.
  assert (Hpos : 0 < len l ->
    exists x, (i <- py_mod index (len l) ;; py_getitem l i) = Ok x /\
              nth_error l (Z.to_nat (index mod len l)) = Some x).
  { intros Hn. destruct (py_mod_pos index (len l) Hn) as [Hm Hr].
    rewrite Hm. cbn [bind]. now apply py_getitem_in_range. }
  split; [|exact Hpos].
  destruct (Z.eq_dec (len l) 0) as [E|E].
  - unfold py_mod. rewrite E. simpl. discriminate.
  - destruct Hpos as (x & Hx & _); [unfold len in *; lia|].
    rewrite Hx. discriminate.
Qed.

Section DatasetFacts.
Context `{img : Imaging}.
Import CustomDiffusionDataset.


End DatasetFacts.


(** ** Arrays: indexing after slice assignment *)

Lemma bind_Ok_inv {A B} (r : result A) (k : A -> result B) (b : B) :
  bind r k = Ok b -> exists a, r = Ok a /\ k a = Ok b.
Proof. destruct r as [a|e]; simpl; [eauto | discriminate]. Qed.

Ltac bind_inv H :=
  let a := fresh "a" in
  let Ha := fresh "Ha" in
  apply bind_Ok_inv in H; destruct H as (a & Ha & H).

Lemma nth_error_imap_from {A B} (f : Z -> A -> B) (l : list A) :
  forall (k : Z) (n : nat),
    nth_error (imap_from f k l) n = option_map (f (k + Z.of_nat n)) (nth_error l n).
Proof.
  induction l as [|x t IH]; intros k n.
  - destruct n; reflexivity.
  - destruct n as [|n]; simpl.
    + now rewrite Z.add_0_r.
    + rewrite IH. do 2 f_equal. lia.
Qed.

Lemma zth_imap_from {A B} (f : Z -> A -> B) (l : list A) (i : Z) :
  zth (imap_from f 0 l) i = option_map (f i) (zth l i).
Proof.
  unfold zth. destruct (i <? 0) eqn:E; [reflexivity|].
  apply Z.ltb_ge in E. rewrite nth_error_imap_from.
  now rewrite Z.add_0_l, Z2Nat.id.
Qed.

Lemma length_imap_from {A B} (f : Z -> A -> B) (l : list A) (k : Z) :
  List.length (imap_from f k l) = List.length l.
Proof. revert k. induction l; intros k; simpl; [reflexivity | now rewrite IHl]. Qed.

Lemma len_imap_from {A B} (f : Z -> A -> B) (l : list A) (k : Z) :
  len (imap_from f k l) = len l.
Proof. unfold len. now rewrite length_imap_from. Qed.

Lemma Forall_imap_from {A B} (P : A -> Prop) (Q : B -> Prop) (f : Z -> A -> B)
    (l : list A) (k : Z) :
  (forall i x, P x -> Q (f i x)) -> Forall P l -> Forall Q (imap_from f k l).
Proof.
  intros Hf Hl. revert k. induction Hl; intros k; simpl; constructor; auto.
Qed.

Lemma zth_Some_range {A} (l : list A) (i : Z) (x : A) :
  zth l i = Some x -> 0 <= i < len l.
Proof.
  unfold zth, len. destruct (i <? 0) eqn:E; [discriminate|].
  apply Z.ltb_ge in E. intros H.
  assert (Hn : nth_error l (Z.to_nat i) <> None) by congruence.
  apply nth_error_Some in Hn. lia.
Qed.


Lemma zth_In {A} (l : list A) (i : Z) (x : A) : zth l i = Some x -> In x l.
Proof.
  unfold zth. destruct (i <? 0); [discriminate|]. apply nth_error_In.
Qed.

Lemma zth_repeat {A} (x y : A) (n : nat) (i : Z) :
  zth (repeat x n) i = Some y -> y = x /\ 0 <= i < Z.of_nat n.
Proof.
  intros H. split.
  - apply zth_In in H. now apply repeat_spec in H.
  - apply zth_Some_range in H. now rewrite len_repeat in H.
Qed.

Lemma zth_map {A B} (f : A -> B) (l : list A) (i : Z) :
  zth (map f l) i = option_map f (zth l i).
Proof.
  unfold zth. destruct (i <? 0); [reflexivity|]. apply nth_error_map.
Qed.

Lemma len_map {A B} (f : A -> B) (l : list A) : len (map f l) = len l.
Proof. unfold len. now rewrite length_map. Qed.

(** For bounds that are not negative, a slice is the interval it names. *)
Lemma in_slice_nonneg (n a b i : Z) :
  0 <= a -> 0 <= b -> 0 <= i < n ->
  (in_slice n a b i = true <-> a <= i < b).
Proof.
  intros Ha Hb Hi. unfold in_slice, slice_index.
  destruct (a <? 0) eqn:Ea; [apply Z.ltb_lt in Ea; lia|].
  destruct (b <? 0) eqn:Eb; [apply Z.ltb_lt in Eb; lia|].
  rewrite andb_true_iff, Z.leb_le, Z.ltb_lt. lia.
Qed.

Lemma px_assign_scalar2 {A} (a : array2 A) (r0 r1 c0 c1 : Z) (v : A) (i j : Z) :
  px (assign_scalar2 a r0 r1 c0 c1 v) i j =
  match zth a i with
  | Some row =>
      option_map
        (fun x => if in_slice (len a) r0 r1 i && in_slice (len row) c0 c1 j then v else x)
        (zth row j)
  | None => None
  end.
Proof.
  unfold px, assign_scalar2. rewrite zth_imap_from.
  destruct (zth a i) as [row|]; [|reflexivity]. cbn [option_map].
  destruct (in_slice (len a) r0 r1 i); cbn [andb].
  - now rewrite zth_imap_from.
  - destruct (zth row j); reflexivity.
Qed.



Lemma Forall_binary_assign (a : array2 Q) (r0 r1 c0 c1 : Z) :
  Forall (Forall binary) a ->
  Forall (Forall binary) (assign_scalar2 a r0 r1 c0 c1 1%Q).
Proof.
  intros Ha. unfold assign_scalar2.
  apply Forall_imap_from with (P := Forall binary); [|exact Ha].
  intros i row Hrow. destruct (in_slice _ _ _ i); [|exact Hrow].
  apply Forall_imap_from with (P := binary); [|exact Hrow].
  intros j x Hx. destruct (in_slice _ _ _ j); [now right | exact Hx].
Qed.

Lemma Forall_full2 (P : Q -> Prop) (rows cols : Z) (v : Q) :
  P v -> Forall (Forall P) (full2 rows cols v).
Proof. intros Hv. unfold full2. now do 2 apply Forall_repeat. Qed.

Lemma Forall_take {A} (P : A -> Prop) (l : list A) (n : nat) :
  Forall P l -> Forall P (firstn n l).
Proof.
  intros Hl. revert n. induction Hl; intros [|n]; simpl; constructor; auto.
Qed.

Lemma Forall_drop {A} (P : A -> Prop) (l : list A) (n : nat) :
  Forall P l -> Forall P (skipn n l).
Proof.
  intros Hl. revert n. induction Hl; intros [|n]; simpl; auto.
Qed.

Lemma Forall_py_slice {A} (P : A -> Prop) (l : list A) (a b : Z) :
  Forall P l -> Forall P (py_slice l a b).
Proof. intros Hl. unfold py_slice. now apply Forall_take, Forall_drop. Qed.

Lemma slice_index_inside (n a : Z) : 0 <= a <= n -> slice_index n a = a.
Proof.
  intros Ha. unfold slice_index.
  destruct (a <? 0) eqn:E; [apply Z.ltb_lt in E; lia | lia].
Qed.

Lemma len_py_slice {A} (l : list A) (a b : Z) :
  0 <= a -> a <= b -> b <= len l -> len (py_slice l a b) = b - a.
Proof.
  intros Ha Hab Hb. unfold py_slice.
  rewrite !slice_index_inside by lia.
  unfold len in *. rewrite length_firstn, length_skipn. lia.
Qed.



Lemma shape3_rescaled (bytes : array3 Z) (rows cols chans : Z) :
  shape3 bytes rows cols chans -> shape3 (rescaled bytes) rows cols chans.
Proof.
  intros [Hlen Hrows]. unfold rescaled, shape3. rewrite len_map.
  split; [exact Hlen|].
  rewrite Forall_map. eapply Forall_impl; [|exact Hrows].
  intros row [Hc Hpx]. rewrite len_map. split; [exact Hc|].
  rewrite Forall_map. eapply Forall_impl; [|exact Hpx].
  intros p Hp. now rewrite len_map.
Qed.

(** *** The mask of [preprocess] *)

Lemma mask_layout (m r0 r1 c0 c1 : Z) :
  0 <= r0 -> 0 <= r1 -> 0 <= c0 -> 0 <= c1 ->
  ones_exactly_inside (assign_scalar2 (full2 m m 0%Q) r0 r1 c0 c1 1%Q) r0 r1 c0 c1.
Proof.
  intros Hr0 Hr1 Hc0 Hc1 i j x Hx.
  rewrite px_assign_scalar2 in Hx.
  destruct (zth (full2 m m 0%Q) i) as [row|] eqn:Er; [|discriminate].
  unfold full2 in Er. pose proof (zth_repeat _ _ _ _ Er) as [-> Hi].
  destruct (zth (repeat 0%Q (Z.to_nat m)) j) as [y|] eqn:Ey; [|discriminate].
  pose proof (zth_repeat _ _ _ _ Ey) as [-> Hj].
  cbn [option_map] in Hx. injection Hx as <-.
  unfold full2. rewrite !len_repeat.
  pose proof (in_slice_nonneg (Z.of_nat (Z.to_nat m)) r0 r1 i Hr0 Hr1 Hi) as Hri.
  pose proof (in_slice_nonneg (Z.of_nat (Z.to_nat m)) c0 c1 j Hc0 Hc1 Hj) as Hcj.
  destruct (in_slice _ r0 r1 i); destruct (in_slice _ c0 c1 j); cbn [andb];
    split; intros H; try reflexivity; exfalso.
  - apply H. split; [apply Hri | apply Hcj]; reflexivity.
  - destruct H as [_ H]. apply Hcj in H. discriminate.
  - destruct H as [H _]. apply Hri in H. discriminate.
  - destruct H as [H _]. apply Hri in H. discriminate.
Qed.

Lemma shape2_assign_scalar2 (m r0 r1 c0 c1 : Z) (v : Q) :
  0 <= m -> shape2 (assign_scalar2 (full2 m m 0%Q) r0 r1 c0 c1 v) m m.
Proof.
  intros Hm. unfold shape2, assign_scalar2. rewrite len_imap_from.
  unfold full2. rewrite len_repeat. split; [lia|].
  apply Forall_imap_from with (P := fun row => len row = m).
  - intros i row Hrow. destruct (in_slice _ _ _ i); [|exact Hrow].
    now rewrite len_imap_from.
  - apply Forall_repeat. rewrite len_repeat. lia.
Qed.

Lemma shape2_full2 (m : Z) (v : Q) : 0 <= m -> shape2 (full2 m m v) m m.
Proof.
  intros Hm. unfold shape2, full2. rewrite len_repeat. split; [lia|].
  apply Forall_repeat. rewrite len_repeat. lia.
Qed.

(** *** The picture of [preprocess] *)

Section Placement.
Variables (size scale top left : Z) (b : array3 Q).
Hypothesis Hb : shape3 b scale scale 3.
Hypothesis Htop : 0 <= top /\ top + scale <= size.
Hypothesis Hleft : 0 <= left /\ left + scale <= size.

Let canvas := full3 size size 3 0%Q.
Let placed := assign_block canvas top (top + scale) left (left + scale) b.

Lemma canvas_len : len canvas = Z.of_nat (Z.to_nat size).
Proof. unfold canvas, full3. apply len_repeat. Qed.

Lemma size_nonneg : 0 <= scale <= size.
Proof. destruct Hb as [H _]. unfold len in H. lia. Qed.





Lemma placed_shape : shape3 placed size size 3.
Proof.
  pose proof size_nonneg as Hs.
  destruct Hb as [_ Hrows]. rewrite Forall_forall in Hrows.
  unfold shape3, placed, assign_block. rewrite len_imap_from, canvas_len.
  split; [lia|].
  apply Forall_imap_from
    with (P := fun row : list (list Q) =>
                 len row = size /\ Forall (fun p => len p = 3) row).
  - intros i row [Hlen Hpx]. destruct (in_slice _ _ _ i); [|now split].
    rewrite len_imap_from. split; [exact Hlen|].
    apply Forall_imap_from with (P := fun p : list Q => len p = 3); [|exact Hpx].
    intros j x Hx. destruct (in_slice _ _ _ j); [|exact Hx].
    destruct (zth b _) as [brow|] eqn:Eb; [|exact Hx].
    destruct (zth brow _) as [y|] eqn:Ey; [|exact Hx].
    destruct (Hrows brow (zth_In _ _ _ Eb)) as [_ Hp].
    rewrite Forall_forall in Hp. apply Hp. eapply zth_In; eauto.
  - unfold canvas, full3. apply Forall_repeat. rewrite len_repeat.
    split; [lia|]. apply Forall_repeat. reflexivity.
Qed.

End Placement.

Section Cropping.
Variables (size scale top left : Z) (b : array3 Q).
Hypothesis Hb : shape3 b scale scale 3.
Hypothesis Hsize : 0 <= size.
Hypothesis Htop : 0 <= top /\ top + size <= scale.
Hypothesis Hleft : 0 <= left /\ left + size <= scale.

Let cropped := crop b top (top + size) left (left + size).


Lemma cropped_shape : shape3 cropped size size 3.
Proof.
  destruct Hb as [Hlen Hrows]. unfold shape3, cropped, crop.
  rewrite len_map, len_py_slice by lia. split; [lia|].
  rewrite Forall_map. apply Forall_py_slice.
  eapply Forall_impl; [|exact Hrows].
  intros row [Hc Hp]. rewrite len_py_slice by lia. split; [lia|].
  now apply Forall_py_slice.
Qed.

End Cropping.

(** ** preprocess and get_one_mask *)

Lemma np_zeros2_inv (m : Z) (a : array2 Q) :
  np_zeros2 m m = Ok a -> 0 <= m /\ a = full2 m m 0%Q.
Proof.
  unfold np_zeros2. destruct (m <? 0) eqn:E; cbn [orb]; [discriminate|].
  apply Z.ltb_ge in E. intros H. injection H as <-. now split.
Qed.

Lemma np_ones2_inv (m : Z) (a : array2 Q) :
  np_ones2 m m = Ok a -> 0 <= m /\ a = full2 m m 1%Q.
Proof.
  unfold np_ones2. destruct (m <? 0) eqn:E; cbn [orb]; [discriminate|].
  apply Z.ltb_ge in E. intros H. injection H as <-. now split.
Qed.

Lemma np_zeros2_ok (m : Z) : 0 <= m -> np_zeros2 m m = Ok (full2 m m 0%Q).
Proof.
  intros Hm. unfold np_zeros2.
  destruct (m <? 0) eqn:E; [apply Z.ltb_lt in E; lia | reflexivity].
Qed.

Lemma np_ones2_ok (m : Z) : 0 <= m -> np_ones2 m m = Ok (full2 m m 1%Q).
Proof.
  intros Hm. unfold np_ones2.
  destruct (m <? 0) eqn:E; [apply Z.ltb_lt in E; lia | reflexivity].
Qed.

Lemma np_zeros3_ok (n : Z) : 0 <= n -> np_zeros3 n n 3 = Ok (full3 n n 3 0%Q).
Proof.
  intros Hn. unfold np_zeros3.
  destruct (n <? 0) eqn:E; [apply Z.ltb_lt in E; lia | reflexivity].
Qed.

Lemma py_floordiv_ok (a b : Z) : b <> 0 -> py_floordiv a b = Ok (a / b).
Proof.
  intros Hb. unfold py_floordiv.
  destruct (b =? 0) eqn:E; [apply Z.eqb_eq in E; contradiction | reflexivity].
Qed.

Lemma np_random_randint_ok (raw high : Z) :
  0 < high ->
  exists v, np_random_randint raw 0 high = Ok v /\ 0 <= v < high.
Proof.
  intros Hh. unfold np_random_randint.
  destruct (high <=? 0) eqn:E; [apply Z.leb_le in E; lia|].
  eexists; split; [reflexivity|].
  rewrite Z.sub_0_r. pose proof (Z.mod_pos_bound raw high Hh). lia.
Qed.

Section PreprocessFacts.
Context `{img : Imaging}.
Import CustomDiffusionDataset.

Lemma preprocess_small (self : t) (image : Image) (scale : Z) (d : Draws) :
  (scale >? size self) = false ->
  preprocess self image scale d =
    (factor <- py_floordiv (size self) (mask_size self) ;;
     top <- offset self scale (raw_top d) ;;
     left <- offset self scale (raw_left d) ;;
     bytes <- resize image scale ;;
     instance_image <- np_zeros3 (size self) (size self) 3 ;;
     m <- py_floordiv (size self) factor ;;
     mask <- np_zeros2 m m ;;
     Ok (assign_block instance_image top (top + scale) left (left + scale)
           (rescaled bytes),
         assign_scalar2 mask
           (top / factor + 1) ((top + scale) / factor - 1)
           (left / factor + 1) ((left + scale) / factor - 1) 1%Q)).
Proof. intros E. unfold preprocess. rewrite E. reflexivity. Qed.

Lemma preprocess_large (self : t) (image : Image) (scale : Z) (d : Draws) :
  (scale >? size self) = true ->
  preprocess self image scale d =
    (factor <- py_floordiv (size self) (mask_size self) ;;
     top <- offset self scale (raw_top d) ;;
     left <- offset self scale (raw_left d) ;;
     bytes <- resize image scale ;;
     instance_image <- np_zeros3 (size self) (size self) 3 ;;
     m <- py_floordiv (size self) factor ;;
     mask <- np_zeros2 m m ;;
     ones <- np_ones2 m m ;;
     Ok (crop (rescaled bytes) top (top + size self) left (left + size self), ones)).
Proof. intros E. unfold preprocess. rewrite E. reflexivity. Qed.

(** Whatever the scale and the draws, a mask [preprocess] returns holds
    only zeros and ones. *)
Lemma preprocess_mask_binary (self : t) (image : Image) (scale : Z) (d : Draws)
    (instance_image : array3 Q) (mask : array2 Q) :
  preprocess self image scale d = Ok (instance_image, mask) ->
  Forall (Forall binary) mask.
Proof.
  intros H. destruct (scale >? size self) eqn:E.
  - rewrite (preprocess_large _ _ _ _ E) in H.
    do 8 bind_inv H. injection H as _ <-.
    apply np_ones2_inv in Ha6. destruct Ha6 as [_ ->].
    apply Forall_full2. now right.
  - rewrite (preprocess_small _ _ _ _ E) in H.
    do 7 bind_inv H. injection H as _ <-.
    apply np_zeros2_inv in Ha5. destruct Ha5 as [_ ->].
    apply Forall_binary_assign, Forall_full2. now left.
Qed.

Lemma offset_small (self : t) (scale raw : Z) :
  0 < scale <= size self ->
  exists top, offset self scale raw = Ok top /\ 0 <= top /\ top + scale <= size self.
Proof.
  intros Hs. unfold offset.
  assert (E : (scale >? size self) = false) by (rewrite Z.gtb_ltb; apply Z.ltb_ge; lia).
  rewrite E.
  destruct (np_random_randint_ok raw (size self - scale + 1)) as (v & Hv & Hr); [lia|].
  exists v. split; [exact Hv | lia].
Qed.

Lemma offset_large (self : t) (scale raw : Z) :
  size self < scale ->
  exists top, offset self scale raw = Ok top /\ 0 <= top /\ top + size self <= scale.
Proof.
  intros Hs. unfold offset.
  assert (E : (scale >? size self) = true) by (rewrite Z.gtb_ltb; apply Z.ltb_lt; lia).
  rewrite E.
  destruct (np_random_randint_ok raw (scale - size self + 1)) as (v & Hv & Hr); [lia|].
  exists v. split; [exact Hv | lia].
Qed.


End PreprocessFacts.



Lemma map2_map_same {A B C} (f : A -> B -> C) (g : A -> B) (l : list A) :
  map2 f l (map g l) = map (fun x => f x (g x)) l.
Proof. induction l; simpl; [reflexivity | now rewrite IHl]. Qed.

Lemma add_class_mask (m : array2 Q) :
  t2_map2 Qplus m (CustomDiffusionDataset.ones_like m) =
  map (map (fun x => (x + 1)%Q)) m.
Proof.
  unfold t2_map2, CustomDiffusionDataset.ones_like.
  rewrite map2_map_same. apply map_ext. intros row. apply map2_map_same.
Qed.

Section MaskFacts.
Context `{img : Imaging}.


End MaskFacts.



(** ** Tensors: the PGD update element by element *)

Lemma map3_ext {A B C D} (f g : A -> B -> C -> D) (l1 : list A) (l2 : list B)
    (l3 : list C) :
  (forall x y z, f x y z = g x y z) -> map3 f l1 l2 l3 = map3 g l1 l2 l3.
Proof.
  intros Hfg. revert l2 l3.
  induction l1 as [|x t1 IH]; intros [|y t2] [|z t3]; simpl; try reflexivity.
  now rewrite Hfg, IH.
Qed.

(** A step, a projection and a second projection, each written with
    whole-list operations, act position by position. *)
Lemma step_project_fuse {A B B' C D E E' F G}
    (f1 : A -> B' -> C) (g : B -> B') (f2 : C -> D -> E) (c2 : E -> E')
    (f3 : D -> E' -> F) (c1 : F -> G)
    (p : list A) (gr : list B) (o : list D) :
  map c1 (map2 f3 o (map c2 (map2 f2 (map2 f1 p (map g gr)) o))) =
  map3 (fun x y z => c1 (f3 z (c2 (f2 (f1 x (g y)) z)))) p gr o.
Proof.
  revert gr o.
  induction p as [|x p IH]; intros [|y gr] [|z o]; simpl; try reflexivity.
  now rewrite IH.
Qed.

Lemma nth_error_map3 {A B C D} (f : A -> B -> C -> D)
    (l1 : list A) (l2 : list B) (l3 : list C) (n : nat) :
  nth_error (map3 f l1 l2 l3) n =
  match nth_error l1 n, nth_error l2 n, nth_error l3 n with
  | Some x, Some y, Some z => Some (f x y z)
  | _, _, _ => None
  end.
Proof.
  revert l1 l2 l3.
  induction n as [|n IH]; intros [|x t1] [|y t2] [|z t3]; simpl;
    try reflexivity; try apply IH;
    repeat match goal with
           | |- context [nth_error ?l ?n] => destruct (nth_error l n)
           end; reflexivity.
Qed.






Lemma get4_map3 (f : Q -> Q -> Q -> Q) (p g o : array4 Q) (i j k l : nat) :
  get4 (t4_map3 f p g o) i j k l =
  match get4 p i j k l, get4 g i j k l, get4 o i j k l with
  | Some x, Some y, Some z => Some (f x y z)
  | _, _, _ => None
  end.
Proof.
  unfold get4, t4_map3. rewrite nth_error_map3.
  destruct (nth_error p i) as [p3|]; [|reflexivity].
  destruct (nth_error g i) as [g3|].
  2:{ destruct (nth_error p3 j) as [p2|]; [|reflexivity].
      destruct (nth_error p2 k) as [p1|]; [|reflexivity].
      destruct (nth_error p1 l); reflexivity. }
  destruct (nth_error o i) as [o3|].
  2:{ destruct (nth_error p3 j) as [p2|]; [|reflexivity].
      destruct (nth_error p2 k) as [p1|]; [|reflexivity].
      destruct (nth_error p1 l); [|reflexivity].
      destruct (nth_error g3 j) as [g2|]; [|reflexivity].
      destruct (nth_error g2 k) as [g1|]; [|reflexivity].
      destruct (nth_error g1 l); reflexivity. }
  rewrite nth_error_map3.
  destruct (nth_error p3 j) as [p2|]; [|reflexivity].
  destruct (nth_error g3 j) as [g2|].
  2:{ destruct (nth_error p2 k) as [p1|]; [|reflexivity].
      destruct (nth_error p1 l); reflexivity. }
  destruct (nth_error o3 j) as [o2|].
  2:{ destruct (nth_error p2 k) as [p1|]; [|reflexivity].
      destruct (nth_error p1 l); [|reflexivity].
      destruct (nth_error g2 k) as [g1|]; [|reflexivity].
      destruct (nth_error g1 l); reflexivity. }
  rewrite nth_error_map3.
  destruct (nth_error p2 k) as [p1|]; [|reflexivity].
  destruct (nth_error g2 k) as [g1|].
  2:{ destruct (nth_error p1 l); reflexivity. }
  destruct (nth_error o2 k) as [o1|].
  2:{ destruct (nth_error p1 l); [|reflexivity].
      destruct (nth_error g1 l); reflexivity. }
  apply nth_error_map3.
Qed.

Section UpdateFacts.
Context `{img : Imaging} `{trainer : Trainer}.

Lemma pgd_update_elementwise (alpha eps : Q) (p g o : array4 Q) :
  pgd_update alpha eps p g o = t4_map3 (pgd_element alpha eps) p g o.
Proof.
  unfold pgd_update, t4_map3, t4_map, t4_map2, t3_map2, t2_map2.
  rewrite step_project_fuse. apply map3_ext. intros p3 g3 o3.
  rewrite step_project_fuse. apply map3_ext. intros p2 g2 o2.
  rewrite step_project_fuse. apply map3_ext. intros p1 g1 o1.
  rewrite step_project_fuse. apply map3_ext. intros x y z.
  reflexivity.
Qed.

End UpdateFacts.




(** ** One iteration of the loop, taken apart *)

Section IterationFacts.
Context `{img : Imaging} `{trainer : Trainer}.

Lemma train_iteration_inv (args : Namespace) (h : Harness)
    (train_dataset : CustomDiffusionDataset.t) (s s' : TrainState) (o : Observation) :
  train_iteration args h train_dataset s o = Ok s' ->
  exists target loss mask' gs r,
    loss_target h o = Ok target /\
    compute_loss args (model_pred o) target (mask s) = Ok (loss, mask') /\
    (if sync_gradients o
     then gs = global_step s + 1 /\ py_mod gs (checkpointing_steps args) = Ok r
     else gs = global_step s) /\
    pertubed_images s' =
      pgd_update (alpha args) (eps args)
        (pertubed_images s) (images_grad o) (original_images s) /\
    original_images s' = original_images s /\
    mask s' = mask' /\
    (optimizer s', custom_diffusion_layers s') =
      optimizer_step (optimizer s) (custom_diffusion_layers s) (step_grads o) /\
    frozen s' = frozen s /\
    lr_scheduler s' = lr_scheduler s + 1 /\
    global_step s' = gs /\
    trace s' = trace s ++
      iteration_events h train_dataset (sync_gradients o) loss gs r (pertubed_images s').
Proof.
  unfold train_iteration, step_grads, iteration_events. intros H.
  bind_inv H. rename a into target, Ha into Htarget.
  bind_inv H. destruct a as [loss mask']. rename Ha into Hloss.
  destruct (sync_gradients o) eqn:Esync.
  - destruct (optimizer_step _ _ _) as [opt' layers'] eqn:Eopt.
    bind_inv H. destruct a as [gs tr]. bind_inv Ha.
    exists target, loss, mask', (global_step s + 1), a.
    destruct ((a =? 0) && is_main_process h); injection Ha as <- <-;
      injection H as <-; cbn;
      repeat split; try assumption; try reflexivity;
      rewrite <- !app_assoc; reflexivity.
  - destruct (optimizer_step _ _ _) as [opt' layers'] eqn:Eopt.
    cbn [bind] in H. injection H as <-.
    exists target, loss, mask', (global_step s), 0. cbn.
    repeat split; try assumption; try reflexivity.
    rewrite <- !app_assoc. reflexivity.
Qed.


Lemma train_loop_snoc (args : Namespace) (h : Harness)
    (train_dataset : CustomDiffusionDataset.t) (obs : nat -> Observation)
    (n : nat) :
  forall (epoch : nat) (s : TrainState),
    train_loop args h train_dataset obs epoch (S n) s =
    (s' <- train_loop args h train_dataset obs epoch n s ;;
     train_iteration args h train_dataset s' (obs (epoch + n)%nat)).
Proof.
  assert (HS : forall e m s,
            train_loop args h train_dataset obs e (S m) s =
            (s1 <- train_iteration args h train_dataset s (obs e) ;;
             train_loop args h train_dataset obs (S e) m s1))
    by reflexivity.
  induction n as [|n IH]; intros epoch s.
  - cbn [train_loop bind]. rewrite Nat.add_0_r.
    destruct (train_iteration _ _ _ s _); reflexivity.
  - rewrite (HS epoch (S n)), (HS epoch n).
    destruct (train_iteration args h train_dataset s (obs epoch)) as [s1|e];
      [|reflexivity].
    cbn [bind]. rewrite IH.
    replace (S epoch + n)%nat with (epoch + S n)%nat by lia. reflexivity.
Qed.

(** Every pass of a run that came back was made from a state the run
    reached, and came back itself. *)
Lemma train_loop_passes (args : Namespace) (h : Harness)
    (train_dataset : CustomDiffusionDataset.t) (obs : nat -> Observation)
    (n : nat) (s0 sn : TrainState) :
  train_loop args h train_dataset obs 0 n s0 = Ok sn ->
  forall k, (k < n)%nat ->
    exists sk sk',
      train_loop args h train_dataset obs 0 k s0 = Ok sk /\
      train_iteration args h train_dataset sk (obs k) = Ok sk' /\
      train_loop args h train_dataset obs 0 (S k) s0 = Ok sk'.
Proof.
  revert sn. induction n as [|n IH]; intros sn Hn k Hk; [lia|].
  rewrite train_loop_snoc in Hn. bind_inv Hn. cbn [Nat.add] in Hn.
  destruct (Nat.eq_dec k n) as [->|Hne].
  - exists a, sn. split; [exact Ha|]. split; [exact Hn|].
    rewrite train_loop_snoc, Ha. exact Hn.
  - apply (IH a Ha k). lia.
Qed.

End IterationFacts.

(** ** The PGD update of every pass *)

Section PgdFacts.
Context `{img : Imaging} `{trainer : Trainer}.

(** C3.  In every pass of a run, each element of the new perturbed tensor
    is [clamp(o + clamp(x + alpha * sign(g) - o, -eps, eps), -1, 1)], where
    [x], [g] and [o] are the elements of the old perturbed tensor, of its
    gradient and of the original tensor at the same position. *)
Theorem pgd_update_every_pass (args : Namespace) (h : Harness)
    (train_dataset : CustomDiffusionDataset.t) (obs : nat -> Observation)
    (n : nat) (s0 sn : TrainState) :
  train_loop args h train_dataset obs 0 n s0 = Ok sn ->
  forall pass, (pass < n)%nat ->
    exists s s',
      train_loop args h train_dataset obs 0 pass s0 = Ok s /\
      train_loop args h train_dataset obs 0 (S pass) s0 = Ok s' /\
      forall i j k l,
        get4 (pertubed_images s') i j k l =
        match get4 (pertubed_images s) i j k l,
              get4 (images_grad (obs pass)) i j k l,
              get4 (original_images s) i j k l with
        | Some x, Some g, Some o => Some (pgd_element (alpha args) (eps args) x g o)
        | _, _, _ => None
        end.
Proof.
  intros Hrun pass Hpass.
  destruct (train_loop_passes _ _ _ _ _ _ _ Hrun pass Hpass) as (s & s' & Hs & Hit & Hs').
  exists s, s'. split; [exact Hs|]. split; [exact Hs'|].
  apply train_iteration_inv in Hit.
  destruct Hit as (target & loss & mask' & gs & r & _ & _ & _ & Hp & _).
  intros i j k l. rewrite Hp, pgd_update_elementwise. apply get4_map3.
Qed.

End PgdFacts.

Lemma pgd_update_every_pass_witness :
  exists s s',
    example_run example_args 1 = Ok s /\
    example_run example_args 2 = Ok s' /\
    forall i j k l,
      get4 (pertubed_images s') i j k l =
      match get4 (pertubed_images s) i j k l,
            get4 (images_grad (example_obs 1)) i j k l,
            get4 (original_images s) i j k l with
      | Some x, Some g, Some o => Some (pgd_element (5 # 1000) (1 # 10) x g o)
      | _, _, _ => None
      end.
Proof.
  assert (Hrun : exists sn, example_run example_args 2 = Ok sn)
    by (eexists; vm_compute; reflexivity).
  destruct Hrun as [sn Hrun].
  unfold example_run in Hrun. bind_inv Hrun.
  destruct (pgd_update_every_pass _ _ _ _ 2%nat a sn Hrun 1%nat)
    as (s & s' & H1 & H2 & H3); [lia|].
  exists s, s'. unfold example_run. rewrite Ha. cbn [bind].
  split; [exact H1|]. split; [exact H2 | exact H3].
Defined.

(** ** The perturbation stays in the ball *)

Lemma byte_unit_range (v : Z) : is_uint8 v -> unit_range (inject_Z v / 255).
Proof.
  intros [H0 H1]. unfold unit_range. split.
  - apply Qle_shift_div_l; [reflexivity|].
    rewrite Qmult_0_l. change 0%Q with (inject_Z 0). now rewrite <- Zle_Qle.
  - apply Qle_shift_div_r; [reflexivity|].
    rewrite Qmult_1_l. change 255%Q with (inject_Z 255). now rewrite <- Zle_Qle.
Qed.

Lemma Forall_nth_default {A} (P : A -> Prop) (l : list A) (n : nat) (d : A) :
  Forall P l -> P d -> P (nth n l d).
Proof.
  intros Hl Hd. destruct (nth_in_or_default n l d) as [Hin| ->]; [|exact Hd].
  rewrite Forall_forall in Hl. now apply Hl.
Qed.

Lemma ToTensor_range (a : array3 Z) :
  Forall (Forall (Forall is_uint8)) a ->
  Forall (Forall (Forall unit_range)) (ToTensor a).
Proof.
  intros Ha. unfold ToTensor, permute_2_0_1.
  assert (Hq : Forall (Forall (Forall unit_range))
                 (map (map (map (fun v => (inject_Z v / 255)%Q))) a)).
  { rewrite Forall_map. eapply Forall_impl; [|exact Ha].
    intros row Hrow. rewrite Forall_map. eapply Forall_impl; [|exact Hrow].
    intros p Hp. rewrite Forall_map. eapply Forall_impl; [|exact Hp].
    intros v. apply byte_unit_range. }
  assert (Hc : forall c,
             Forall (Forall unit_range)
               (map (map (fun p => nth c p 0%Q))
                    (map (map (map (fun v => (inject_Z v / 255)%Q))) a))).
  { intros c. rewrite Forall_map. eapply Forall_impl; [|exact Hq].
    intros row Hrow. rewrite Forall_map. eapply Forall_impl; [|exact Hrow].
    intros p Hp. apply Forall_nth_default; [exact Hp|].
    split; [apply Qle_refl | discriminate]. }
  repeat constructor; apply Hc.
Qed.

Lemma Normalize_range (t : array3 Q) :
  Forall (Forall (Forall unit_range)) t ->
  Forall (Forall (Forall pixel_range)) (Normalize t).
Proof.
  intros Ht. unfold Normalize.
  rewrite Forall_map. eapply Forall_impl; [|exact Ht].
  intros c Hc. rewrite Forall_map. eapply Forall_impl; [|exact Hc].
  intros row Hrow. rewrite Forall_map. eapply Forall_impl; [|exact Hrow].
  intros x [H0 H1]. unfold pixel_range.
  assert (E : ((x - (1 # 2)) / (1 # 2) == 2 * x - 1)%Q) by (field).
  rewrite E. split; lra.
Qed.

Section BallFacts.
Context `{img : Imaging} `{trainer : Trainer}.

Lemma image_transforms_range (train_dataset : CustomDiffusionDataset.t) (im : Image) :
  Forall (Forall (Forall pixel_range))
    (CustomDiffusionDataset.image_transforms train_dataset im).
Proof.
  unfold CustomDiffusionDataset.image_transforms.
  apply Normalize_range, ToTensor_range, resize_crop_uint8.
Qed.

(** The loop starts with the perturbed tensor equal to the original one,
    every element in [-1, 1], the step count at zero and nothing logged. *)
Lemma prepare_inv (args : Namespace) (train_dataset : CustomDiffusionDataset.t)
    (layers : Weights) (fz : Frozen) (opt : OptState) (draws : nat -> Draws)
    (s0 : TrainState) :
  prepare args train_dataset layers fz opt draws = Ok s0 ->
  pertubed_images s0 = original_images s0 /\
  Forall (Forall (Forall (Forall pixel_range))) (original_images s0) /\
  global_step s0 = 0 /\ trace s0 = [] /\ frozen s0 = fz.
Proof.
  unfold prepare. intros H. do 3 bind_inv H. injection H as <-. cbn.
  split; [reflexivity|]. split; [|auto].
  unfold torch_stack in Ha. destruct (map _ _) eqn:E; [discriminate|].
  injection Ha as <-. rewrite <- E. rewrite Forall_map.
  apply Forall_forall. intros p _. apply image_transforms_range.
Qed.




End BallFacts.


(** ** Both updates in every pass; checkpoints; what a pass leaves alone *)



Section LoopFacts.
Context `{img : Imaging} `{trainer : Trainer}.




Lemma compute_loss_keeps_mask (args : Namespace) (pred target : array4 Q)
    (m m' : list (array2 Q)) (loss : Q) :
  with_prior_preservation args = false ->
  compute_loss args pred target m = Ok (loss, m') ->
  m' = m /\ loss = mean4 (mse_loss_none pred target).
Proof.
  intros Hp. unfold compute_loss. rewrite Hp. intros H. injection H as <- <-.
  now split.
Qed.

Lemma synced_passes_S (obs : nat -> Observation) (n : nat) :
  synced_passes obs (S n) =
  (synced_passes obs n + if sync_gradients (obs n) then 1 else 0)%nat.
Proof.
  unfold synced_passes. rewrite seq_S, filter_app, length_app. cbn.
  destruct (sync_gradients (obs n)); reflexivity.
Qed.

(** C6, as amended.  Over a whole run the original image tensor and the
    frozen weights ([vae], [text_encoder], [unet]) keep their values, and
    without prior preservation so does the mask.  Besides the perturbed
    tensor and the adapter weights a pass does change the bookkeeping: the
    scheduler advances on every pass and the step count on every
    synchronised pass. *)
Theorem originals_and_frozen_unchanged (args : Namespace) (h : Harness)
    (train_dataset : CustomDiffusionDataset.t) (obs : nat -> Observation)
    (n : nat) (s0 sn : TrainState) :
  train_loop args h train_dataset obs 0 n s0 = Ok sn ->
  original_images sn = original_images s0 /\
  frozen sn = frozen s0 /\
  (with_prior_preservation args = false -> mask sn = mask s0) /\
  lr_scheduler sn = lr_scheduler s0 + Z.of_nat n /\
  global_step sn = global_step s0 + Z.of_nat (synced_passes obs n).
Proof.
  revert sn. induction n as [|n IH]; intros sn Hrun.
  - cbn in Hrun. injection Hrun as <-. cbn. repeat split; auto; lia.
  - rewrite train_loop_snoc in Hrun. bind_inv Hrun. cbn [Nat.add] in Hrun.
    destruct (IH a Ha) as (Ho & Hf & Hm & Hlr & Hgs).
    apply train_iteration_inv in Hrun.
    destruct Hrun as (target & loss & mask' & gs & r & _ & Hloss & Hg & _ & Ho' & Hm'
                      & _ & Hf' & Hlr' & Hgs' & _).
    split; [congruence|]. split; [congruence|]. split; [|split].
    + intros Hp. rewrite Hm', <- (Hm Hp).
      now destruct (compute_loss_keeps_mask _ _ _ _ _ _ Hp Hloss).
    + lia.
    + rewrite synced_passes_S.
      destruct (sync_gradients (obs n)); [destruct Hg as [Hg _]|]; lia.
Qed.



End LoopFacts.


Lemma originals_and_frozen_unchanged_witness :
  exists s0 sn,
    example_prepare example_args = Ok s0 /\
    example_run example_args 3 = Ok sn /\
    original_images sn = original_images s0 /\
    frozen sn = example_frozen /\
    mask sn = mask s0.
Proof.
  assert (Hrun : exists sn, example_run example_args 3 = Ok sn)
    by (eexists; vm_compute; reflexivity).
  destruct Hrun as [sn Hrun]. pose proof Hrun as Hrun'.
  unfold example_run in Hrun'. bind_inv Hrun'.
  destruct (originals_and_frozen_unchanged _ _ _ _ _ _ _ Hrun')
    as (Ho & Hf & Hm & _).
  exists a, sn. split; [exact Ha|]. split; [exact Hrun|]. split; [exact Ho|].
  split; [|apply Hm; reflexivity].
  rewrite Hf. apply prepare_inv in Ha. now destruct Ha as (_ & _ & _ & _ & ->).
Defined.

(** C6 as stated fails: a pass also advances the step count and the
    scheduler, and with prior preservation it rebinds [mask] to the first
    half of itself (line 929), here from two rows to one. *)
Lemma pass_changes_more_than_images_and_adapter :
  exists s s',
    example_prepare example_prior_args = Ok s /\
    train_iteration example_prior_args example_harness (tiny_dataset true) s
      (example_obs 0) = Ok s' /\
    len (mask s) = 2 /\ len (mask s') = 1 /\
    global_step s = 0 /\ global_step s' = 1 /\
    ~ only_images_and_adapter_change s s'.
Proof.
  eexists. eexists.
  split; [vm_compute; reflexivity|]. split; [vm_compute; reflexivity|].
  split; [reflexivity|]. split; [reflexivity|].
  split; [reflexivity|]. split; [reflexivity|].
  intros (_ & _ & _ & _ & _ & H). cbn in H. discriminate.
Qed.


(** ** The denoising loss *)




Section LossFacts.
Context `{img : Imaging} `{trainer : Trainer}.


End LossFacts.



(** ** parse_args: what it returns *)

Lemma set_local_rank_same (ns : Namespace) : set_local_rank ns (local_rank ns) = ns.
Proof. destruct ns; reflexivity. Qed.

(** X1.  When [parse_args] returns, the namespace it returns is the parsed
    one with nothing changed but [local_rank]: an integer [LOCAL_RANK]
    other than -1 overrides the command line's value, and -1 or no
    variable leaves it alone. *)
Theorem parse_args_local_rank (ns args : Namespace) (LOCAL_RANK : environ_value)
    (w : list string) :
  parse_args ns LOCAL_RANK = Ok (args, w) ->
  args = set_local_rank ns (local_rank args) /\
  local_rank args =
    match LOCAL_RANK with
    | IntLiteral z => if z =? -1 then local_rank ns else z
    | _ => local_rank ns
    end.
Proof.
  unfold parse_args. intros H. bind_inv H.
  set (z := a) in *.
  assert (Hargs : exists r,
            (if negb (z =? -1) && negb (z =? local_rank ns)
             then set_local_rank ns z else ns) = set_local_rank ns r /\
            r = if z =? -1 then local_rank ns else z).
  { destruct (z =? -1) eqn:E1; cbn [negb andb].
    - exists (local_rank ns). now rewrite set_local_rank_same.
    - destruct (z =? local_rank ns) eqn:E2; cbn [negb andb].
      + apply Z.eqb_eq in E2. exists z. rewrite E2.
        now rewrite set_local_rank_same.
      + exists z. now split. }
  destruct Hargs as (r & Hr & Hz). rewrite Hr in H.
  assert (Hargs : args = set_local_rank ns r).
  { cbn in H.
    repeat match type of H with
           | (if ?b then _ else _) = _ => destruct b
           end; try discriminate; now injection H as <- _. }
  subst args. cbn [local_rank set_local_rank]. split; [reflexivity|].
  rewrite Hz. destruct LOCAL_RANK as [|z'|s]; cbn in Ha.
  - injection Ha as <-. reflexivity.
  - injection Ha as <-. reflexivity.
  - discriminate.
Qed.

Lemma parse_args_local_rank_witness :
  exists args w,
    parse_args example_stray_args (IntLiteral 3) = Ok (args, w) /\
    local_rank args = 3 /\
    args = set_local_rank example_stray_args 3.
Proof.
  assert (H : exists args w, parse_args example_stray_args (IntLiteral 3) = Ok (args, w))
    by (eexists; eexists; reflexivity).
  destruct H as (args & w & H). exists args, w. split; [exact H|].
  destruct (parse_args_local_rank _ _ _ _ H) as [H1 H2].
  cbn in H2. split; [exact H2|]. rewrite H2 in H1. exact H1.
Defined.

(** ** CustomDiffusionDataset: the lists [__init__] builds *)

Lemma len_app {A} (l1 l2 : list A) : len (l1 ++ l2) = len l1 + len l2.
Proof. unfold len. rewrite length_app. lia. Qed.

Lemma len_nonneg {A} (l : list A) : 0 <= len l.
Proof. unfold len. lia. Qed.

Lemma len_flat_map {A B} (f : A -> list B) (l : list A) :
  len (flat_map f l) = fold_right Z.add 0 (map (fun x => len (f x)) l).
Proof.
  induction l as [|x l IH]; simpl; [reflexivity|].
  now rewrite len_app, IH.
Qed.

(** [l[:n]] keeps the first [n] elements when [n] is not negative. *)
Lemma py_slice_prefix {A} (l : list A) (n : Z) :
  0 <= n -> py_slice l 0 n = firstn (Z.to_nat n) l /\ len (py_slice l 0 n) = Z.min (len l) n.
Proof.
  intros Hn. pose proof (len_nonneg l) as Hl.
  assert (E : py_slice l 0 n = firstn (Z.to_nat n) l).
  { unfold py_slice. rewrite (slice_index_inside (len l) 0) by lia.
    assert (Es : slice_index (len l) n = Z.min n (len l)).
    { unfold slice_index. destruct (n <? 0) eqn:E; [apply Z.ltb_lt in E; lia|].
      reflexivity. }
    rewrite Es, Z.sub_0_r. cbn [Z.to_nat skipn].
    destruct (Z.le_ge_cases n (len l)) as [H|H].
    - now rewrite Z.min_l by exact H.
    - rewrite Z.min_r by lia. unfold len.
      rewrite Nat2Z.id, firstn_all. symmetry. apply firstn_all2.
      unfold len in H. lia. }
  split; [exact E|]. rewrite E. unfold len. rewrite length_firstn. lia.
Qed.

Section InitFacts.
Import CustomDiffusionDataset.

(** X2.  What [__init__] collects.  The instance list is a rearrangement
    of every file of every concept paired with the concept's prompt, so
    there are as many instance images as files.  Without prior
    preservation the class list is empty and the dataset is as long as the
    instance list.  With it, and [num_class_images >= 0], each concept
    contributes its first [num_class_images] class pairs, in order: the
    option bounds the class images per concept, not in total. *)
Theorem init_lists (concepts : list Concept) (size mask_size : Z) (cc prior : bool)
    (n_class : Z) (aug : bool) (shuffle : list (string * string) -> list (string * string)) :
  (forall l, Permutation (shuffle l) l) ->
  let self := __init__ concepts size mask_size cc prior n_class aug shuffle in
  Permutation (instance_images_path self)
    (flat_map (fun c => map (fun x => (x, instance_prompt c)) (instance_files c))
       concepts) /\
  num_instance_images self =
    fold_right Z.add 0 (map (fun c => len (instance_files c)) concepts) /\
  (prior = false ->
   class_images_path self = [] /\ __len__ self = num_instance_images self) /\
  (prior = true -> 0 <= n_class ->
   class_images_path self =
     flat_map (fun c => firstn (Z.to_nat n_class) (class_pairs c)) concepts /\
   num_class_images self =
     fold_right Z.add 0 (map (fun c => Z.min (len (class_pairs c)) n_class) concepts) /\
   num_class_images self <= len concepts * n_class).
Proof.
  intros Hsh self. split; [apply Hsh|]. split.
  - unfold self, __init__. cbn [num_instance_images].
    unfold len at 1. rewrite (Permutation_length (Hsh _)). fold (len
      (flat_map (fun c => map (fun x => (x, instance_prompt c)) (instance_files c))
         concepts)).
    rewrite len_flat_map. f_equal. apply map_ext. intros c. apply len_map.
  - split.
    + intros ->. unfold self, __init__, __len__.
      cbn [class_images_path _length num_instance_images].
      assert (E : flat_map (fun _ : Concept => @nil (string * string)) concepts = []).
      { induction concepts as [|c cs IH]; simpl; auto. }
      rewrite E. split; [reflexivity|]. apply Z.max_r. apply len_nonneg.
    + intros -> Hn. unfold self, __init__.
      cbn [class_images_path num_class_images].
      assert (E : flat_map (fun c => py_slice (class_pairs c) 0 n_class) concepts =
                  flat_map (fun c => firstn (Z.to_nat n_class) (class_pairs c)) concepts).
      { apply flat_map_ext. intros c. now apply py_slice_prefix. }
      split; [exact E|].
      assert (L : len (flat_map (fun c => py_slice (class_pairs c) 0 n_class) concepts) =
                  fold_right Z.add 0
                    (map (fun c => Z.min (len (class_pairs c)) n_class) concepts)).
      { rewrite len_flat_map. f_equal. apply map_ext. intros c.
        now apply py_slice_prefix. }
      split; [exact L|]. rewrite L. clear.
      induction concepts as [|c cs IH]; [simpl; lia|].
      cbn [map fold_right]. unfold len in *. cbn [List.length]. lia.
Qed.

(** X3.  [len(dataset)] is large enough for every image: each position of
    the instance list and of the class list is an index below
    [len(dataset)], and asking for the item at that index reads that very
    entry. *)
Theorem every_entry_is_served (concepts : list Concept) (size mask_size : Z)
    (cc prior : bool) (n_class : Z) (aug : bool)
    (shuffle : list (string * string) -> list (string * string)) :
  let self := __init__ concepts size mask_size cc prior n_class aug shuffle in
  (forall k entry, nth_error (instance_images_path self) k = Some entry ->
     0 <= Z.of_nat k < __len__ self /\
     instance_entry self (Z.of_nat k) = Ok entry) /\
  (forall k entry, nth_error (class_images_path self) k = Some entry ->
     0 <= Z.of_nat k < __len__ self /\
     class_entry self (Z.of_nat k) = Ok entry).
Proof.
  intros self.
  assert (Hserve : forall (l : list (string * string)) k entry,
            nth_error l k = Some entry ->
            Z.of_nat k < len l /\
            (i <- py_mod (Z.of_nat k) (len l) ;; py_getitem l i) = Ok entry).
  { intros l k entry Hk.
    assert (Hlt : (k < List.length l)%nat) by (apply nth_error_Some; congruence).
    assert (Hr : 0 <= Z.of_nat k < len l) by (unfold len; lia).
    split; [lia|].
    destruct (py_mod_pos (Z.of_nat k) (len l)) as [Hm _]; [lia|].
    rewrite Hm. cbn [bind]. rewrite Z.mod_small by exact Hr.
    destruct (py_getitem_in_range l (Z.of_nat k) Hr) as (x & Hx & Hn).
    rewrite Nat2Z.id in Hn. congruence. }
  split; intros k entry Hk; destruct (Hserve _ _ _ Hk) as [Hlt Hget];
    (split; [|exact Hget]); unfold self, __init__, __len__ in *;
    cbn [_length instance_images_path class_images_path] in *; lia.
Qed.

End InitFacts.

Lemma init_lists_witness :
  CustomDiffusionDataset.instance_images_path example_shuffled_dataset =
    [("data/person/bb.jpg", "photo of a sks person");
     ("data/person/a.jpg", "photo of a sks person")]%string /\
  CustomDiffusionDataset.num_instance_images example_shuffled_dataset = 2 /\
  CustomDiffusionDataset.class_images_path example_shuffled_dataset =
    [("data/class/0.jpg", "a person"); ("data/class/1.jpg", "a person")]%string /\
  CustomDiffusionDataset.num_class_images example_shuffled_dataset = 2.
Proof.
  destruct (init_lists example_concepts 32 4 false true 2 false (@rev (string * string)))
    as (_ & Hn & _ & Hc).
  - intros l. symmetry. apply Permutation_rev.
  - destruct Hc as (Hc & Hnc & _); [reflexivity | lia |].
    split; [reflexivity|]. split; [exact Hn|]. split; [exact Hc | exact Hnc].
Defined.

(** ** The scale [__getitem__] and [get_one_mask] draw *)

(** [int(q * n)] for a fraction [q = a / b] and an integer [n >= 0]. *)
Lemma py_int_scaled (a : Z) (b : positive) (n : Z) :
  0 <= a -> 0 <= n -> py_int ((a # b) * inject_Z n) = (a * n) / Zpos b.
Proof.
  intros Ha Hn. unfold py_int.
  assert (E : Qle_bool 0 ((a # b) * inject_Z n) = true).
  { apply Qle_bool_iff. apply Qmult_le_0_compat.
    - unfold Qle. cbn. lia.
    - change 0%Q with (inject_Z 0). now rewrite <- Zle_Qle. }
  rewrite E. unfold Qfloor, Qmult, inject_Z. cbn [Qnum Qden].
  now rewrite Pos.mul_1_r.
Qed.

Lemma np_random_randint_range (raw low high : Z) :
  low < high ->
  exists v, np_random_randint raw low high = Ok v /\ low <= v < high.
Proof.
  intros H. unfold np_random_randint.
  destruct (high <=? low) eqn:E; [apply Z.leb_le in E; lia|].
  eexists. split; [reflexivity|].
  pose proof (Z.mod_pos_bound raw (high - low)). lia.
Qed.

Section ScaleFacts.
Context `{img : Imaging}.
Import CustomDiffusionDataset.

(** The scale drawn for a dataset of size at least 3 is positive. *)
Lemma random_scale_pos (self : t) (d : Draws) :
  3 <= size self ->
  exists scale, random_scale self d = Ok scale /\ 0 < scale.
Proof.
  intros Hs. unfold random_scale.
  destruct (aug self); [|exists (size self); split; [reflexivity | lia]].
  destruct (Qlt_bool _ _).
  - destruct (np_random_randint_range (raw_scale d) (size self / 3) (size self + 1))
      as (v & Hv & Hr).
    + pose proof (Z.div_le_upper_bound (size self) 3 (size self)). lia.
    + exists v. split; [exact Hv|].
      pose proof (Z.div_le_lower_bound (size self) 3 1). lia.
  - rewrite !py_int_scaled by lia.
    destruct (np_random_randint_range (raw_scale d)
                (12 * size self / 10) (14 * size self / 10)) as (v & Hv & Hr).
    + pose proof (Z.div_mod (12 * size self) 10).
      pose proof (Z.mod_pos_bound (12 * size self) 10).
      pose proof (Z.div_mod (14 * size self) 10).
      pose proof (Z.mod_pos_bound (14 * size self) 10).
      assert (size self = 3 \/ size self = 4 \/ 5 <= size self) as [-> | [-> | H5]]
        by lia; [reflexivity | reflexivity | lia].
    + exists v. split; [exact Hv|].
      pose proof (Z.div_le_lower_bound (12 * size self) 10 1). lia.
Qed.


(** X5.  A dataset whose [mask_size] is zero, or larger than its [size],
    cannot preprocess anything: [size // mask_size] raises
    [ZeroDivisionError] in the first case, and is zero in the second, so
    that [size // factor] raises it once the image has been resized. *)
Theorem preprocess_zero_division (self : t) (image : Image) (scale : Z) (d : Draws) :
  (mask_size self = 0 -> preprocess self image scale d = Raise ZeroDivisionError) /\
  (0 <= size self < mask_size self -> 0 < scale ->
   preprocess self image scale d = Raise ZeroDivisionError).
Proof.
  split.
  - intros Hm. unfold preprocess, py_floordiv. rewrite Hm.
    destruct (scale >? size self); reflexivity.
  - intros Hm Hscale.
    assert (Hf : py_floordiv (size self) (mask_size self) = Ok 0).
    { rewrite py_floordiv_ok by lia. now rewrite Z.div_small by lia. }
    destruct (resize_shape image scale Hscale) as (bytes & Hbytes & _).
    destruct (scale >? size self) eqn:E.
    + rewrite (preprocess_large _ _ _ _ E), Hf. cbn [bind].
      destruct (offset_large self scale (raw_top d)) as (top & -> & _);
        [apply Z.gtb_lt in E; lia|].
      destruct (offset_large self scale (raw_left d)) as (left & -> & _);
        [apply Z.gtb_lt in E; lia|].
      cbn [bind]. rewrite Hbytes. cbn [bind].
      rewrite np_zeros3_ok by lia. reflexivity.
    + rewrite (preprocess_small _ _ _ _ E), Hf. cbn [bind].
      assert (Hle : scale <= size self)
        by (rewrite Z.gtb_ltb in E; apply Z.ltb_ge in E; exact E).
      destruct (offset_small self scale (raw_top d)) as (top & -> & _); [lia|].
      destruct (offset_small self scale (raw_left d)) as (left & -> & _); [lia|].
      cbn [bind]. rewrite Hbytes. cbn [bind].
      rewrite np_zeros3_ok by lia. reflexivity.
Qed.

End ScaleFacts.


Lemma preprocess_zero_division_witness :
  CustomDiffusionDataset.preprocess example_coarse_dataset (100 : Z) 32 example_draws =
    Raise ZeroDivisionError.
Proof.
  apply (@preprocess_zero_division flat_imaging example_coarse_dataset (100 : Z) 32
           example_draws).
  - cbv. split; congruence.
  - reflexivity.
Defined.

(** ** The names of the files a checkpoint writes *)






(** ** What a checkpoint writes *)















Section CheckpointFacts.
Context `{img : Imaging} `{trainer : Trainer}.








End CheckpointFacts.




(** ** Whole runs: when they return, when they stop, what they write *)



Section RunFacts.
Context `{img : Imaging} `{trainer : Trainer}.



Lemma loss_target_known (h : Harness) (o : Observation) :
  prediction_type h = "epsilon"%string \/ prediction_type h = "v_prediction"%string ->
  exists target, loss_target h o = Ok target.
Proof.
  unfold loss_target. intros [-> | ->]; cbn; eauto.
Qed.


(** X11.  With a scheduler of any other prediction type the first pass
    raises [ValueError], before any loss is computed: a run of at least
    one pass does not return. *)
Theorem unknown_prediction_type_raises (args : Namespace) (h : Harness)
    (train_dataset : CustomDiffusionDataset.t) (obs : nat -> Observation)
    (n : nat) (s : TrainState) :
  prediction_type h <> "epsilon"%string ->
  prediction_type h <> "v_prediction"%string ->
  train_loop args h train_dataset obs 0 (S n) s =
    Raise (ValueError ("Unknown prediction type " ++ prediction_type h)).
Proof.
  intros He Hv. cbn [train_loop]. unfold train_iteration, loss_target.
  apply String.eqb_neq in He, Hv. rewrite He, Hv. reflexivity.
Qed.

(** X12.  [--checkpointing_steps 0] stops the run at its first training
    step.  Without prior preservation and with a known prediction type, a
    run whose passes include one on which the harness synchronised
    gradients raises [ZeroDivisionError] (at
    [global_step % checkpointing_steps]); a run without such a pass
    returns. *)
Theorem zero_checkpointing_steps_raises (args : Namespace) (h : Harness)
    (train_dataset : CustomDiffusionDataset.t) (obs : nat -> Observation)
    (n : nat) (s : TrainState) :
  checkpointing_steps args = 0 ->
  with_prior_preservation args = false ->
  prediction_type h = "epsilon"%string \/ prediction_type h = "v_prediction"%string ->
  ((exists k, (k < n)%nat /\ sync_gradients (obs k) = true) ->
   train_loop args h train_dataset obs 0 n s = Raise ZeroDivisionError) /\
  ((forall k, (k < n)%nat -> sync_gradients (obs k) = false) ->
   exists sn, train_loop args h train_dataset obs 0 n s = Ok sn).
Proof.
  intros Hcs Hp Ht.
  assert (Hpass : forall epoch s0,
            if sync_gradients (obs epoch)
            then train_iteration args h train_dataset s0 (obs epoch) =
                   Raise ZeroDivisionError
            else exists s1, train_iteration args h train_dataset s0 (obs epoch) = Ok s1).
  { intros epoch s0. unfold train_iteration.
    destruct (loss_target_known h (obs epoch) Ht) as [target ->]. cbn [bind].
    unfold compute_loss. rewrite Hp. cbn [bind].
    destruct (sync_gradients (obs epoch));
      destruct (optimizer_step _ _ _) as [opt' layers'].
    - unfold py_mod. rewrite Hcs. reflexivity.
    - cbn [bind]. eauto. }
  assert (Hgen : forall m epoch s0,
            ((exists k, (epoch <= k < epoch + m)%nat /\ sync_gradients (obs k) = true) ->
             train_loop args h train_dataset obs epoch m s0 = Raise ZeroDivisionError) /\
            ((forall k, (epoch <= k < epoch + m)%nat -> sync_gradients (obs k) = false) ->
             exists sn, train_loop args h train_dataset obs epoch m s0 = Ok sn)).
  { induction m as [|m IH]; intros epoch s0.
    - split; [intros (k & Hk & _); lia | intros _; cbn; eauto].
    - cbn [train_loop]. pose proof (Hpass epoch s0) as H1.
      destruct (sync_gradients (obs epoch)) eqn:Esync.
      + rewrite H1. split; [reflexivity|].
        intros Hnone. rewrite (Hnone epoch) in Esync by lia. discriminate.
      + destruct H1 as [s1 ->]. cbn [bind].
        destruct (IH (S epoch) s1) as [IHr IHo]. split.
        * intros (k & Hk & Hsync). apply IHr. exists k. split; [|exact Hsync].
          assert (k <> epoch) by (intros ->; congruence). lia.
        * intros Hnone. apply IHo. intros k Hk. apply Hnone. lia. }
  destruct (Hgen n 0%nat s) as [Hr Ho]. split.
  - intros (k & Hk & Hsync). apply Hr. exists k. split; [lia | exact Hsync].
  - intros Hnone. apply Ho. intros k Hk. apply Hnone. lia.
Qed.

End RunFacts.



Lemma unknown_prediction_type_raises_witness :
  exists s0,
    example_prepare example_args = Ok s0 /\
    train_loop example_args example_sample_harness (tiny_dataset false) example_obs 0 3 s0 =
      Raise (ValueError "Unknown prediction type sample").
Proof.
  assert (H : exists s0, example_prepare example_args = Ok s0)
    by (eexists; vm_compute; reflexivity).
  destruct H as [s0 Hprep]. exists s0. split; [exact Hprep|].
  apply (unknown_prediction_type_raises example_args
           example_sample_harness (tiny_dataset false) example_obs 2 s0);
    discriminate.
Defined.

Lemma zero_checkpointing_steps_raises_witness :
  exists s0,
    example_prepare example_no_checkpoint_args = Ok s0 /\
    train_loop example_no_checkpoint_args example_harness (tiny_dataset false)
      example_obs 0 3 s0 = Raise ZeroDivisionError.
Proof.
  assert (H : exists s0, example_prepare example_no_checkpoint_args = Ok s0)
    by (eexists; vm_compute; reflexivity).
  destruct H as [s0 Hprep]. exists s0. split; [exact Hprep|].
  destruct (zero_checkpointing_steps_raises
              example_no_checkpoint_args example_harness (tiny_dataset false)
              example_obs 3 s0) as [Hr _].
  - reflexivity.
  - reflexivity.
  - left. reflexivity.
  - apply Hr. exists 0%nat. split; [lia | reflexivity].
Defined.

(** ** Prior preservation: the mask from pass to pass *)

Lemma len_firstn {A} (l : list A) (k : Z) :
  0 <= k <= len l -> len (firstn (Z.to_nat k) l) = k.
Proof. unfold len. intros H. rewrite length_firstn. lia. Qed.

Lemma len_skipn {A} (l : list A) (k : Z) :
  0 <= k <= len l -> len (skipn (Z.to_nat k) l) = len l - k.
Proof. unfold len. intros H. rewrite length_skipn. lia. Qed.


Lemma half_up_bounds (n : Z) :
  0 <= n -> 0 <= (n + 1) / 2 <= n /\ n <= 2 * ((n + 1) / 2) <= n + 1.
Proof.
  intros Hn. pose proof (Z.div_mod (n + 1) 2 ltac:(lia)).
  pose proof (Z.mod_pos_bound (n + 1) 2 ltac:(lia)). lia.
Qed.

(** The first chunk of [torch.chunk(x, 2)] is the first half of [x],
    rounded up. *)
Lemma first_chunk {A} (x : list A) :
  hd [] (torch_chunk2 x) = firstn (Z.to_nat ((len x + 1) / 2)) x /\
  len (hd [] (torch_chunk2 x)) = (len x + 1) / 2.
Proof.
  pose proof (len_nonneg x) as Hx. pose proof (half_up_bounds (len x) Hx) as Hh.
  assert (E : hd [] (torch_chunk2 x) = firstn (Z.to_nat ((len x + 1) / 2)) x).
  { unfold torch_chunk2. destruct (len x <=? 1) eqn:E1; [|reflexivity].
    apply Z.leb_le in E1. cbn [hd]. symmetry. apply firstn_all2.
    unfold len in *. lia. }
  split; [exact E|]. rewrite E. apply len_firstn. lia.
Qed.


Lemma chunk_one {A} (x : list A) :
  len x <= 1 ->
  unpack2 (torch_chunk2 x) =
    Raise (ValueError "wrong number of values to unpack (expected 2)").
Proof.
  intros H. unfold torch_chunk2.
  destruct (len x <=? 1) eqn:E; [reflexivity | apply Z.leb_gt in E; lia].
Qed.


(** Halving twice, rounding up each time. *)
Lemma half_up_pow (a : Z) (n : nat) :
  ((a + 2 ^ Z.of_nat n - 1) / 2 ^ Z.of_nat n + 1) / 2 =
  (a + 2 ^ Z.of_nat (S n) - 1) / 2 ^ Z.of_nat (S n).
Proof.
  assert (Hp : 0 < 2 ^ Z.of_nat n) by (apply Z.pow_pos_nonneg; lia).
  rewrite Nat2Z.inj_succ, Z.pow_succ_r by lia.
  set (P := 2 ^ Z.of_nat n) in *.
  replace ((a + P - 1) / P + 1) with ((a + P - 1 + 1 * P) / P)
    by (rewrite Z.div_add by lia; reflexivity).
  rewrite Z.div_div by lia.
  f_equal; lia.
Qed.

Section PriorFacts.
Context `{img : Imaging} `{trainer : Trainer}.


Lemma iteration_halves_mask (args : Namespace) (h : Harness)
    (ds : CustomDiffusionDataset.t) (s s' : TrainState) (o : Observation) :
  with_prior_preservation args = true ->
  train_iteration args h ds s o = Ok s' ->
  mask s' = firstn (Z.to_nat ((len (mask s) + 1) / 2)) (mask s) /\
  len (mask s') = (len (mask s) + 1) / 2.
Proof.
  intros Hp Hit. apply train_iteration_inv in Hit.
  destruct Hit as (target & loss & mask' & gs & r & _ & Hloss & _ & _ & _ & Hm & _).
  unfold compute_loss in Hloss. rewrite Hp in Hloss.
  do 2 bind_inv Hloss. destruct a as [p1 p2], a0 as [t1 t2].
  bind_inv Hloss. injection Hloss as _ <-. rewrite Hm.
  apply first_chunk.
Qed.

(** X13.  With prior preservation every pass rebinds [mask] to the first
    chunk of itself (line 929), so the mask does not last: after [n]
    passes of a run it is the first [ceil(N / 2^n)] rows of the [N] it
    started with.  From [N >= 1] rows and [2^n >= N] on, one row is left
    for all images. *)
Theorem prior_mask_halves (args : Namespace) (h : Harness)
    (train_dataset : CustomDiffusionDataset.t) (obs : nat -> Observation)
    (n : nat) (s0 sn : TrainState) :
  with_prior_preservation args = true ->
  train_loop args h train_dataset obs 0 n s0 = Ok sn ->
  len (mask sn) = (len (mask s0) + 2 ^ Z.of_nat n - 1) / 2 ^ Z.of_nat n /\
  mask sn = firstn (Z.to_nat (len (mask sn))) (mask s0) /\
  (1 <= len (mask s0) <= 2 ^ Z.of_nat n -> len (mask sn) = 1).
Proof.
  intros Hp. revert sn.
  assert (Hmain : forall sn,
            train_loop args h train_dataset obs 0 n s0 = Ok sn ->
            len (mask sn) = (len (mask s0) + 2 ^ Z.of_nat n - 1) / 2 ^ Z.of_nat n /\
            mask sn = firstn (Z.to_nat (len (mask sn))) (mask s0)).
  { induction n as [|n IH]; intros sn Hrun.
    - cbn in Hrun. injection Hrun as <-. cbn [Z.of_nat]. rewrite Z.pow_0_r.
      replace (len (mask s0) + 1 - 1) with (len (mask s0)) by lia.
      rewrite Z.div_1_r. split; [reflexivity|].
      unfold len. rewrite Nat2Z.id. symmetry. apply firstn_all.
    - rewrite train_loop_snoc in Hrun. bind_inv Hrun.
      destruct (IH a Ha) as [Hlen Hfirst].
      destruct (iteration_halves_mask _ _ _ _ _ _ Hp Hrun) as [Hm Hml].
      assert (Hl : len (mask sn) =
                   (len (mask s0) + 2 ^ Z.of_nat (S n) - 1) / 2 ^ Z.of_nat (S n))
        by (rewrite Hml, Hlen; apply half_up_pow).
      split; [exact Hl|]. rewrite Hml.
      pose proof (half_up_bounds (len (mask a)) (len_nonneg _)) as Hb.
      transitivity (firstn (Z.to_nat ((len (mask a) + 1) / 2))
                      (firstn (Z.to_nat (len (mask a))) (mask s0))).
      { rewrite <- Hfirst. exact Hm. }
      rewrite firstn_firstn. f_equal. lia. }
  intros sn Hrun. destruct (Hmain sn Hrun) as [Hlen Hfirst].
  split; [exact Hlen|]. split; [exact Hfirst|].
  intros [H1 H2]. rewrite Hlen.
  assert (Hpos : 0 < 2 ^ Z.of_nat n) by (apply Z.pow_pos_nonneg; lia).
  symmetry. apply (Z.div_unique _ _ 1 (len (mask s0) - 1)); lia.
Qed.

(** X14.  With prior preservation a batch of a single image cannot be
    trained on: [torch.chunk(model_pred, 2)] returns one chunk, and
    unpacking it into two names raises [ValueError]. *)
Theorem prior_single_image_raises (args : Namespace) (h : Harness)
    (train_dataset : CustomDiffusionDataset.t) (s : TrainState) (o : Observation) :
  with_prior_preservation args = true ->
  prediction_type h = "epsilon"%string \/ prediction_type h = "v_prediction"%string ->
  len (model_pred o) = 1 ->
  train_iteration args h train_dataset s o =
    Raise (ValueError "wrong number of values to unpack (expected 2)").
Proof.
  intros Hp Ht H1. unfold train_iteration.
  destruct (loss_target_known h o Ht) as [target ->]. cbn [bind].
  unfold compute_loss. rewrite Hp. rewrite chunk_one by lia. reflexivity.
Qed.


End PriorFacts.

Lemma prior_mask_halves_witness :
  exists s0 s2,
    five_prepare = Ok s0 /\
    train_loop example_prior_args example_harness five_dataset five_obs 0 1 s0 = Ok s2 /\
    len (mask s0) = 5 /\ len (mask s2) = 3.
Proof.
  assert (H : exists s0 s2,
             five_prepare = Ok s0 /\
             train_loop example_prior_args example_harness five_dataset five_obs 0 1 s0 =
               Ok s2 /\
             len (mask s0) = 5).
  { eexists. eexists. split; [vm_compute; reflexivity|].
    split; [vm_compute; reflexivity|]. reflexivity. }
  destruct H as (s0 & s2 & Hprep & Hrun & H5).
  exists s0, s2. split; [exact Hprep|]. split; [exact Hrun|]. split; [exact H5|].
  destruct (prior_mask_halves example_prior_args example_harness five_dataset five_obs
              1 s0 s2 eq_refl Hrun) as (Hlen & _).
  rewrite Hlen, H5. reflexivity.
Defined.

Lemma prior_single_image_raises_witness :
  exists s0,
    example_prepare example_prior_args = Ok s0 /\
    train_iteration example_prior_args example_harness (tiny_dataset true) s0 single_obs =
      Raise (ValueError "wrong number of values to unpack (expected 2)").
Proof.
  assert (H : exists s0, example_prepare example_prior_args = Ok s0)
    by (eexists; vm_compute; reflexivity).
  destruct H as [s0 Hprep]. exists s0. split; [exact Hprep|].
  apply (prior_single_image_raises example_prior_args example_harness
           (tiny_dataset true) s0 single_obs).
  - reflexivity.
  - left. reflexivity.
  - reflexivity.
Defined.


(** ** The PGD step, element by element *)






(** ** __getitem__, get_one_mask and the tensors main prepares *)

Lemma shape2_map_map {A B} (f : A -> B) (a : array2 A) (rows cols : Z) :
  shape2 a rows cols -> shape2 (map (map f) a) rows cols.
Proof.
  intros [Hl Hr]. unfold shape2. rewrite len_map. split; [exact Hl|].
  rewrite Forall_map. eapply Forall_impl; [|exact Hr].
  intros row Hrow. now rewrite len_map.
Qed.

Lemma permute_2_0_1_shape (a : array3 Q) (rows cols chans : Z) :
  shape3 a rows cols chans -> chw_shape (permute_2_0_1 a) 3 rows cols.
Proof.
  intros [Hl Hr]. unfold chw_shape, permute_2_0_1. split; [reflexivity|].
  assert (Hc : forall c, shape2 (map (map (fun px : list Q => nth c px 0%Q)) a) rows cols).
  { intros c. apply shape2_map_map. split; [exact Hl|].
    eapply Forall_impl; [|exact Hr]. now intros row [H _]. }
  repeat constructor; apply Hc.
Qed.

Section ItemFacts.
Context `{img : Imaging}.
Import CustomDiffusionDataset.

(** For a dataset with [0 < mask_size <= size], [preprocess] returns for
    every positive scale, with a picture and a mask of the sizes of the
    dataset. *)
Lemma preprocess_returns (self : t) (image : Image) (scale : Z) (d : Draws) :
  0 < mask_size self <= size self ->
  0 < scale ->
  exists instance_image mask,
    preprocess self image scale d = Ok (instance_image, mask) /\
    shape3 instance_image (size self) (size self) 3 /\
    shape2 mask (size self / (size self / mask_size self))
      (size self / (size self / mask_size self)).
Proof.
  intros Hms Hscale.
  set (factor := size self / mask_size self).
  set (m := size self / factor).
  assert (Hf : 1 <= factor).
  { unfold factor. apply Z.div_le_lower_bound; lia. }
  assert (Hm : 0 <= m) by (unfold m; apply Z.div_pos; lia).
  destruct (resize_shape image scale Hscale) as (bytes & Hbytes & Hshape).
  apply shape3_rescaled in Hshape.
  destruct (Z_le_gt_dec scale (size self)) as [Hle|Hgt].
  - destruct (offset_small self scale (raw_top d)) as (top & Htop & Ht); [lia|].
    destruct (offset_small self scale (raw_left d)) as (left & Hleft & Hl); [lia|].
    eexists. eexists. split.
    { rewrite preprocess_small by (rewrite Z.gtb_ltb; apply Z.ltb_ge; lia).
      rewrite py_floordiv_ok by lia. cbn [bind].
      rewrite Htop, Hleft, Hbytes. cbn [bind].
      rewrite np_zeros3_ok by lia. cbn [bind].
      rewrite py_floordiv_ok by (fold factor; lia). cbn [bind].
      fold factor. fold m. rewrite np_zeros2_ok by exact Hm. cbn [bind].
      reflexivity. }
    split; [apply placed_shape; auto|].
    apply shape2_assign_scalar2; exact Hm.
  - destruct (offset_large self scale (raw_top d)) as (top & Htop & Ht); [lia|].
    destruct (offset_large self scale (raw_left d)) as (left & Hleft & Hl); [lia|].
    eexists. eexists. split.
    { rewrite preprocess_large by (rewrite Z.gtb_ltb; apply Z.ltb_lt; lia).
      rewrite py_floordiv_ok by lia. cbn [bind].
      rewrite Htop, Hleft, Hbytes. cbn [bind].
      rewrite np_zeros3_ok by lia. cbn [bind].
      rewrite py_floordiv_ok by (fold factor; lia). cbn [bind].
      fold factor. fold m. rewrite np_zeros2_ok by exact Hm. cbn [bind].
      rewrite np_ones2_ok by exact Hm. cbn [bind].
      reflexivity. }
    split; [apply cropped_shape with (scale := scale); auto; lia|].
    apply shape2_full2; exact Hm.
Qed.

(** X17.  [__getitem__] returns an item for every index.  For a dataset
    built by [__init__] with [0 < mask_size <= size], [size >= 3], at
    least one instance image and, with prior preservation, at least one
    class image, every index gives an item whose picture is a
    [3 x size x size] tensor and whose mask is
    [size // factor x size // factor]; its prompt is the prompt of the
    entry at [index % num_instance_images], behind one of the four
    augmentation prefixes or none, and none without augmentation.  The
    class fields are present exactly with prior preservation, the class
    mask being all ones in the shape of the mask. *)
Theorem getitem_returns (concepts : list Concept) (sz msz : Z) (cc prior : bool)
    (n_class : Z) (ag : bool) (shuffle : list (string * string) -> list (string * string))
    (index : Z) (d : Draws) :
  let self := __init__ concepts sz msz cc prior n_class ag shuffle in
  0 < msz <= sz ->
  3 <= sz ->
  0 < num_instance_images self ->
  (prior = true -> 0 < num_class_images self) ->
  exists item entry prefix,
    __getitem__ self index d = Ok item /\
    instance_entry self index = Ok entry /\
    chw_shape (instance_images item) 3 sz sz /\
    shape2 (mask item) (sz / (sz / msz)) (sz / (sz / msz)) /\
    In prefix prompt_prefixes /\
    (ag = false -> prefix = EmptyString) /\
    instance_prompt_ids item = tokenizer (prefix ++ snd entry) /\
    (prior = false ->
     class_images item = None /\ class_mask item = None /\ class_prompt_ids item = None) /\
    (prior = true ->
     exists centry,
       class_entry self index = Ok centry /\
       class_images item = Some (image_transforms self (image_open (fst centry))) /\
       class_mask item = Some (map (map (fun _ => 1%Q)) (mask item)) /\
       class_prompt_ids item = Some (tokenizer (snd centry))).
Proof.
  intros self Hms Hsz Hinst Hclass.
  destruct (modular_access (instance_images_path self) index) as [_ Hi].
  destruct Hi as (entry & Hentry & _); [exact Hinst|].
  destruct (random_scale_pos self d Hsz) as (scale & Hscale & Hpos).
  destruct (preprocess_returns self (random_flip (image_open (fst entry))) scale d
              Hms Hpos) as (im & mk & Hpre & Him & Hmk).
  set (prefix :=
         if Qlt_bool (inject_Z scale) ((6 # 10) * inject_Z sz)
         then choice (raw_choice d) "a far away " "very small "
         else if scale >? sz
              then choice (raw_choice d) "zoomed in " "close up "
              else EmptyString).
  assert (Hprefix : In prefix prompt_prefixes).
  { unfold prefix, choice, prompt_prefixes.
    destruct (Qlt_bool _ _); [destruct (_ =? 0); cbn; tauto|].
    destruct (scale >? sz); [destruct (_ =? 0); cbn; tauto|]. cbn. tauto. }
  assert (Hnoaug : ag = false -> prefix = EmptyString).
  { intros ->. unfold random_scale in Hscale. cbn in Hscale.
    injection Hscale as <-. unfold prefix.
    assert (E1 : Qlt_bool (inject_Z sz) ((6 # 10) * inject_Z sz) = false).
    { unfold Qlt_bool. apply negb_false_iff, Qle_bool_iff.
      assert (H0 : (0 <= inject_Z sz)%Q).
      { change 0%Q with (inject_Z 0). rewrite <- Zle_Qle. lia. }
      lra. }
    rewrite E1.
    assert (E2 : (sz >? sz) = false) by (rewrite Z.gtb_ltb; apply Z.ltb_irrefl).
    now rewrite E2. }
  assert (Hprompt : (if Qlt_bool (inject_Z scale) ((6 # 10) * inject_Z (size self))
                     then (choice (raw_choice d) "a far away " "very small " ++ snd entry)%string
                     else if scale >? size self
                          then (choice (raw_choice d) "zoomed in " "close up " ++ snd entry)%string
                          else snd entry) = (prefix ++ snd entry)%string).
  { unfold prefix. change (size self) with sz.
    destruct (Qlt_bool _ _); [reflexivity|]. destruct (scale >? sz); reflexivity. }
  unfold __getitem__.
  change (instance_entry self index)
    with (i <- py_mod index (num_instance_images self) ;;
          py_getitem (instance_images_path self) i) in *.
  change (num_instance_images self) with (len (instance_images_path self)) in *.
  rewrite Hentry. cbn [bind]. destruct entry as [path prompt]. cbn [fst snd] in *.
  rewrite Hscale. cbn [bind]. rewrite Hpre. cbn [bind]. rewrite Hprompt.
  destruct prior eqn:Eprior.
  - destruct (modular_access (class_images_path self) index) as [_ Hc].
    destruct Hc as (centry & Hcentry & _); [now apply Hclass|].
    change (with_prior_preservation self) with true. cbv iota.
    change (class_entry self index)
      with (j <- py_mod index (num_class_images self) ;;
            py_getitem (class_images_path self) j).
    change (num_class_images self) with (len (class_images_path self)).
    rewrite Hcentry. cbn [bind]. destruct centry as [cpath cprompt].
    eexists. exists (path, prompt), prefix.
    split; [reflexivity|]. split; [reflexivity|]. cbn.
    split; [eapply permute_2_0_1_shape; exact Him|].
    split; [exact Hmk|]. split; [exact Hprefix|]. split; [exact Hnoaug|].
    split; [reflexivity|]. split; [discriminate|].
    intros _. exists (cpath, cprompt). repeat split; reflexivity.
  - change (with_prior_preservation self) with false. cbv iota.
    eexists. exists (path, prompt), prefix.
    split; [reflexivity|]. split; [reflexivity|]. cbn.
    split; [eapply permute_2_0_1_shape; exact Him|].
    split; [exact Hmk|]. split; [exact Hprefix|]. split; [exact Hnoaug|].
    split; [reflexivity|]. split; [repeat split|discriminate].
Qed.

End ItemFacts.

Lemma getitem_returns_witness :
  exists item,
    CustomDiffusionDataset.__getitem__ (example_dataset true true) 2 example_draws = Ok item /\
    chw_shape (CustomDiffusionDataset.instance_images item) 3 32 32 /\
    shape2 (CustomDiffusionDataset.mask item) 4 4 /\
    CustomDiffusionDataset.instance_prompt_ids item = [32].
Proof.
  destruct (@getitem_returns flat_imaging example_concepts 32 4 false true 200 true
              (fun l => l) 2 example_draws)
    as (item & entry & prefix & Hitem & Hentry & Him & Hmk & _ & _ & _).
  - lia.
  - lia.
  - reflexivity.
  - reflexivity.
  - exists item. split; [exact Hitem|]. split; [exact Him|]. split; [exact Hmk|].
    vm_compute in Hitem. injection Hitem as <-. reflexivity.
Defined.

Lemma px_map_map {A B} (f : A -> B) (a : array2 A) (i j : Z) :
  px (map (map f) a) i j = option_map f (px a i j).
Proof.
  unfold px. rewrite zth_map. destruct (zth a i) as [row|]; [|reflexivity].
  cbn [option_map]. apply zth_map.
Qed.

Lemma sum1_ge_1 (l : list Q) :
  l <> [] -> Forall (fun x => (1 <= x)%Q) l -> (1 <= sum1 l)%Q.
Proof.
  intros Hne Hl. induction Hl as [|x l Hx Hl IH]; [contradiction|].
  unfold sum1 in *. cbn [fold_right].
  destruct l as [|y l]; [cbn; lra|].
  assert (H : (1 <= fold_right Qplus 0 (y :: l))%Q) by (apply IH; discriminate).
  lra.
Qed.

Section PrepareFacts.
Context `{img : Imaging} `{trainer : Trainer}.

(** [get_one_mask] returns a mask of the dataset's mask size. *)
Lemma get_one_mask_returns (args : Namespace) (ds : CustomDiffusionDataset.t)
    (image : Image) (d : Draws) :
  0 < CustomDiffusionDataset.mask_size ds <= CustomDiffusionDataset.size ds ->
  3 <= CustomDiffusionDataset.size ds ->
  exists one_mask,
    get_one_mask args ds image d = Ok one_mask /\
    shape2 one_mask
      (CustomDiffusionDataset.size ds /
         (CustomDiffusionDataset.size ds / CustomDiffusionDataset.mask_size ds))
      (CustomDiffusionDataset.size ds /
         (CustomDiffusionDataset.size ds / CustomDiffusionDataset.mask_size ds)) /\
    (with_prior_preservation args = true ->
     Forall (Forall (fun x => (1 <= x)%Q)) one_mask).
Proof.
  intros Hms Hsz.
  destruct (random_scale_pos ds d Hsz) as (scale & Hscale & Hpos).
  destruct (preprocess_returns ds image scale d Hms Hpos) as (im & mk & Hpre & _ & Hmk).
  unfold get_one_mask. rewrite Hscale. cbn [bind]. rewrite Hpre. cbn [bind snd].
  destruct (with_prior_preservation args).
  - eexists. split; [reflexivity|]. rewrite add_class_mask.
    split; [now apply shape2_map_map|]. intros _.
    apply preprocess_mask_binary in Hpre.
    rewrite Forall_map. eapply Forall_impl; [|exact Hpre].
    intros row Hrow. rewrite Forall_map. eapply Forall_impl; [|exact Hrow].
    intros x [-> | ->]; discriminate.
  - exists mk. split; [reflexivity|]. split; [exact Hmk | discriminate].
Qed.

Lemma mask_list_returns (args : Namespace) (ds : CustomDiffusionDataset.t)
    (draws : nat -> Draws) (images : list Image) :
  0 < CustomDiffusionDataset.mask_size ds <= CustomDiffusionDataset.size ds ->
  3 <= CustomDiffusionDataset.size ds ->
  forall k, exists ml,
    mask_list args ds images draws k = Ok ml /\
    len ml = len images /\
    Forall (fun mk =>
              shape2 mk
                (CustomDiffusionDataset.size ds /
                   (CustomDiffusionDataset.size ds / CustomDiffusionDataset.mask_size ds))
                (CustomDiffusionDataset.size ds /
                   (CustomDiffusionDataset.size ds / CustomDiffusionDataset.mask_size ds)) /\
              (with_prior_preservation args = true ->
               Forall (Forall (fun x => (1 <= x)%Q)) mk)) ml.
Proof.
  intros Hms Hsz. induction images as [|image rest IH]; intros k.
  - exists []. cbn. repeat split. constructor.
  - destruct (get_one_mask_returns args ds image (draws k) Hms Hsz) as (m1 & Hm1 & Hs1 & Hp1).
    destruct (IH (S k)) as (ml & Hml & Hlen & Hall).
    exists (m1 :: ml). cbn [mask_list]. rewrite Hm1. cbn [bind]. rewrite Hml. cbn [bind].
    split; [reflexivity|]. split.
    + unfold len in *. cbn [List.length]. lia.
    + constructor; [split; assumption | exact Hall].
Qed.


(** X19.  With prior preservation the masked loss never divides by zero.
    In a run from the state [main] prepares, every row of the mask, at
    every pass, has a positive sum: each of its elements is at least 1
    (the class mask of ones was added to it) and it is not empty. *)
Theorem prior_mask_sum_positive (args : Namespace) (h : Harness)
    (ds : CustomDiffusionDataset.t) (layers : Weights) (fz : Frozen) (opt : OptState)
    (draws : nat -> Draws) (obs : nat -> Observation) (s0 sn : TrainState) (n : nat) :
  with_prior_preservation args = true ->
  0 < CustomDiffusionDataset.mask_size ds <= CustomDiffusionDataset.size ds ->
  3 <= CustomDiffusionDataset.size ds ->
  prepare args ds layers fz opt draws = Ok s0 ->
  train_loop args h ds obs 0 n s0 = Ok sn ->
  Forall (fun mk => (0 < sum2 mk)%Q) (mask sn).
Proof.
  intros Hp Hms Hsz Hprep Hrun.
  set (m := CustomDiffusionDataset.size ds /
              (CustomDiffusionDataset.size ds / CustomDiffusionDataset.mask_size ds)).
  assert (Hm : 1 <= m).
  { unfold m.
    assert (Hf : 1 <= CustomDiffusionDataset.size ds / CustomDiffusionDataset.mask_size ds)
      by (apply Z.div_le_lower_bound; lia).
    apply Z.div_le_lower_bound; [lia|].
    pose proof (Z.div_le_upper_bound (CustomDiffusionDataset.size ds)
                  (CustomDiffusionDataset.mask_size ds) (CustomDiffusionDataset.size ds)).
    nia. }
  assert (H0 : Forall (fun mk => (0 < sum2 mk)%Q) (mask s0)).
  { unfold prepare in Hprep. do 3 bind_inv Hprep. injection Hprep as <-. cbn.
    destruct (mask_list_returns args ds draws
                (map image_open (map fst (CustomDiffusionDataset.instance_images_path ds)))
                Hms Hsz 0%nat) as (ml & Hml & _ & Hall).
    rewrite Hml in Ha0. injection Ha0 as <-.
    unfold torch_stack in Ha1. destruct ml as [|m1 ml]; [discriminate|].
    injection Ha1 as <-.
    eapply Forall_impl; [|exact Hall]. intros mk [[Hrows Hcols] Hge].
    fold m in Hrows, Hcols. specialize (Hge Hp).
    assert (H1 : (1 <= sum2 mk)%Q).
    { unfold sum2. apply sum1_ge_1.
      - destruct mk; [unfold len in Hrows; cbn in Hrows; lia | discriminate].
      - rewrite Forall_map. rewrite Forall_forall in Hcols, Hge |- *.
        intros row Hin. apply sum1_ge_1; [|now apply Hge].
        specialize (Hcols row Hin).
        destruct row; [unfold len in Hcols; cbn in Hcols; lia | discriminate]. }
    lra. }
  clear Hprep. revert sn Hrun.
  induction n as [|n IH]; intros sn Hrun.
  - cbn in Hrun. now injection Hrun as <-.
  - rewrite train_loop_snoc in Hrun. bind_inv Hrun.
    destruct (iteration_halves_mask _ _ _ _ _ _ Hp Hrun) as [-> _].
    apply Forall_take. now apply IH.
Qed.

(** X20.  Without augmentation every mask is the same, and it never
    covers the border.  [get_one_mask] on a dataset with [aug] off and
    [0 < mask_size <= size] places the image over the whole canvas, yet
    the mask of [m x m] elements, [m = size // factor], is set on
    [1, m - 1) x [1, m - 1) only: the outermost ring keeps the value of
    the padding.  The values are 1 inside and 0 on the ring, and with
    prior preservation 2 and 1. *)
Theorem get_one_mask_no_aug (args : Namespace) (ds : CustomDiffusionDataset.t)
    (image : Image) (d : Draws) :
  CustomDiffusionDataset.aug ds = false ->
  0 < CustomDiffusionDataset.mask_size ds <= CustomDiffusionDataset.size ds ->
  exists one_mask,
    get_one_mask args ds image d = Ok one_mask /\
    shape2 one_mask
      (CustomDiffusionDataset.size ds /
         (CustomDiffusionDataset.size ds / CustomDiffusionDataset.mask_size ds))
      (CustomDiffusionDataset.size ds /
         (CustomDiffusionDataset.size ds / CustomDiffusionDataset.mask_size ds)) /\
    values_inside one_mask
      1 (CustomDiffusionDataset.size ds /
           (CustomDiffusionDataset.size ds / CustomDiffusionDataset.mask_size ds) - 1)
      1 (CustomDiffusionDataset.size ds /
           (CustomDiffusionDataset.size ds / CustomDiffusionDataset.mask_size ds) - 1)
      (if with_prior_preservation args then 2 else 1)
      (if with_prior_preservation args then 1 else 0).
Proof.
  intros Haug Hms.
  set (size := CustomDiffusionDataset.size ds) in *.
  set (factor := size / CustomDiffusionDataset.mask_size ds).
  set (m := size / factor).
  assert (Hf : 1 <= factor) by (unfold factor; apply Z.div_le_lower_bound; lia).
  assert (Hfs : factor <= size).
  { unfold factor. apply Z.div_le_upper_bound; nia. }
  assert (Hm : 1 <= m) by (unfold m; apply Z.div_le_lower_bound; lia).
  assert (Hoff : forall raw, CustomDiffusionDataset.offset ds size raw = Ok 0).
  { intros raw. unfold CustomDiffusionDataset.offset. fold size.
    assert (E : (size >? size) = false) by (rewrite Z.gtb_ltb; apply Z.ltb_irrefl).
    rewrite E. unfold np_random_randint.
    replace (size - size + 1) with 1 by lia. cbn [Z.leb Z.compare].
    now rewrite Z.sub_0_r, Z.mod_1_r. }
  destruct (resize_shape image size ltac:(lia)) as (bytes & Hbytes & _).
  assert (Hpre : CustomDiffusionDataset.preprocess ds image size d =
            Ok (assign_block (full3 size size 3 0%Q) 0 (0 + size) 0 (0 + size)
                  (rescaled bytes),
                assign_scalar2 (full2 m m 0%Q) (0 / factor + 1) ((0 + size) / factor - 1)
                  (0 / factor + 1) ((0 + size) / factor - 1) 1%Q)).
  { rewrite preprocess_small
      by (fold size; rewrite Z.gtb_ltb; apply Z.ltb_irrefl).
    fold size. rewrite py_floordiv_ok by lia. cbn [bind]. fold factor.
    rewrite !Hoff. cbn [bind]. rewrite Hbytes. cbn [bind].
    rewrite np_zeros3_ok by lia. cbn [bind].
    rewrite py_floordiv_ok by lia. cbn [bind]. fold m.
    rewrite np_zeros2_ok by lia. reflexivity. }
  rewrite Z.div_0_l, !Z.add_0_l in Hpre by lia. fold m in Hpre.
  pose proof (mask_layout m 1 (m - 1) 1 (m - 1) ltac:(lia) ltac:(lia) ltac:(lia) ltac:(lia))
    as Hlayout.
  pose proof (shape2_assign_scalar2 m 1 (m - 1) 1 (m - 1) 1%Q ltac:(lia)) as Hshape.
  unfold get_one_mask, CustomDiffusionDataset.random_scale. rewrite Haug. cbn [bind].
  fold size. rewrite Hpre. cbn [bind snd].
  destruct (with_prior_preservation args).
  - eexists. split; [reflexivity|]. rewrite add_class_mask.
    split; [now apply shape2_map_map|].
    intros i j x Hx. rewrite px_map_map in Hx.
    destruct (px _ i j) as [v|] eqn:Ev; [|discriminate].
    cbn [option_map] in Hx. injection Hx as <-.
    destruct (Hlayout i j v Ev) as [Hin Hout].
    split; intros H; [rewrite (Hin H) | rewrite (Hout H)]; reflexivity.
  - eexists. split; [reflexivity|]. split; [exact Hshape|].
    intros i j x Hx. exact (Hlayout i j x Hx).
Qed.

End PrepareFacts.


Lemma prior_mask_sum_positive_witness :
  exists s0 s1,
    five_prepare = Ok s0 /\
    train_loop example_prior_args example_harness five_dataset five_obs 0 1 s0 = Ok s1 /\
    Forall (fun mk => (0 < sum2 mk)%Q) (mask s1).
Proof.
  assert (H : exists s0 s1,
             five_prepare = Ok s0 /\
             train_loop example_prior_args example_harness five_dataset five_obs 0 1 s0 =
               Ok s1).
  { eexists. eexists. split; vm_compute; reflexivity. }
  destruct H as (s0 & s1 & Hprep & Hrun).
  exists s0, s1. split; [exact Hprep|]. split; [exact Hrun|].
  apply (@prior_mask_sum_positive flat_imaging sgd_trainer example_prior_args
           example_harness five_dataset 100 example_frozen 0 (fun _ => example_draws)
           five_obs s0 s1 1).
  - reflexivity.
  - cbv. split; congruence.
  - cbv. congruence.
  - exact Hprep.
  - exact Hrun.
Defined.

Lemma get_one_mask_no_aug_witness :
  exists one_mask,
    get_one_mask example_prior_args (tiny_dataset true) (100 : Z) example_draws =
      Ok one_mask /\
    shape2 one_mask 4 4 /\
    values_inside one_mask 1 3 1 3 2 1.
Proof.
  destruct (@get_one_mask_no_aug flat_imaging example_prior_args (tiny_dataset true)
              (100 : Z) example_draws) as (one_mask & Hget & Hshape & Hvalues).
  - reflexivity.
  - cbv. split; congruence.
  - exists one_mask. split; [exact Hget|]. split; [exact Hshape | exact Hvalues].
Defined.

(** ** A run under a gradient of constant sign *)



Section AscentFacts.
Context `{img : Imaging} `{trainer : Trainer}.


End AscentFacts.


(** ** The sizes of the attention processors *)

Lemma int_of_char_digit (d : Z) : 0 <= d <= 9 -> int_of_char (digit d) = Ok d.
Proof.
  intros Hd. unfold int_of_char, digit.
  rewrite nat_ascii_embedding by lia.
  replace (Z.of_nat (48 + Z.to_nat d)) with (48 + d) by lia.
  assert (E1 : (48 <=? 48 + d) = true) by (apply Z.leb_le; lia).
  assert (E2 : (48 + d <=? 57) = true) by (apply Z.leb_le; lia).
  rewrite E1, E2. cbn [andb]. f_equal. lia.
Qed.

Lemma py_getitem_last {A} (l : list A) :
  0 < len l ->
  exists x, py_getitem l (-1) = Ok x /\ nth_error l (List.length l - 1) = Some x.
Proof.
  intros Hl. unfold py_getitem. cbv zeta. cbn [Z.ltb Z.compare].
  assert (E0 : (-1 + len l <? 0) = false) by (apply Z.ltb_ge; lia).
  assert (E1 : (len l <=? -1 + len l) = false) by (apply Z.leb_gt; lia).
  rewrite E0, E1. cbn [orb].
  replace (Z.to_nat (-1 + len l)) with (List.length l - 1)%nat by (unfold len; lia).
  destruct (nth_error l (List.length l - 1)) as [x|] eqn:E; [eauto|].
  apply nth_error_None in E. unfold len in Hl. lia.
Qed.

(** X22.  The adapter sizes mirror the U-Net.  For [n] blocks with
    channels [block_out_channels], the processor of up block [d] and the
    processor of down block [n - 1 - d] are given the same [hidden_size],
    the channels of block [n - 1 - d]; and the processor of the mid block
    is given that of up block 0, the last channels.  Block numbers are the
    single digit behind the prefix. *)
Theorem hidden_sizes_mirror (block_out_channels : list Z) (d : Z)
    (rest rest' rest'' : string) (prev prev' : option Z) :
  0 <= d < len block_out_channels ->
  len block_out_channels <= 10 ->
  exists x,
    nth_error block_out_channels (Z.to_nat (len block_out_channels - 1 - d)) = Some x /\
    hidden_size block_out_channels ("up_blocks." ++ String (digit d) rest) prev =
      Ok (Some x) /\
    hidden_size block_out_channels
      ("down_blocks." ++ String (digit (len block_out_channels - 1 - d)) rest') prev' =
      Ok (Some x) /\
    (d = 0 -> hidden_size block_out_channels ("mid_block" ++ rest'') prev = Ok (Some x)).
Proof.
  intros Hd Hn. set (n := len block_out_channels) in *.
  destruct (py_getitem_in_range block_out_channels (n - 1 - d)) as (x & Hget & Hnth);
    [fold n; lia|].
  exists x. split; [exact Hnth|].
  assert (Hrev : py_getitem (rev block_out_channels) d = Ok x).
  { destruct (py_getitem_in_range (rev block_out_channels) d) as (y & Hy & Hny).
    - unfold len. rewrite length_rev. fold (len block_out_channels). fold n. lia.
    - rewrite Hy. f_equal. rewrite nth_error_rev in Hny.
      destruct (Nat.ltb_spec (Z.to_nat d) (List.length block_out_channels)) as [_|H];
        [|unfold n, len in Hd; lia].
      replace (List.length block_out_channels - S (Z.to_nat d))%nat
        with (Z.to_nat (n - 1 - d)) in Hny by (unfold n, len; lia).
      congruence. }
  split; [|split].
  - unfold hidden_size.
    assert (E1 : startswith ("up_blocks." ++ String (digit d) rest) "mid_block" = false)
      by reflexivity.
    assert (E2 : startswith ("up_blocks." ++ String (digit d) rest) "up_blocks" = true)
      by reflexivity.
    assert (E3 : str_getitem ("up_blocks." ++ String (digit d) rest)
                   (String.length "up_blocks.") = Ok (digit d)) by reflexivity.
    rewrite E1, E2, E3. cbn [bind].
    rewrite int_of_char_digit by lia. cbn [bind]. now rewrite Hrev.
  - unfold hidden_size.
    set (c := digit (n - 1 - d)).
    assert (E1 : startswith ("down_blocks." ++ String c rest') "mid_block" = false)
      by reflexivity.
    assert (E2 : startswith ("down_blocks." ++ String c rest') "up_blocks" = false)
      by reflexivity.
    assert (E3 : startswith ("down_blocks." ++ String c rest') "down_blocks" = true)
      by reflexivity.
    assert (E4 : str_getitem ("down_blocks." ++ String c rest')
                   (String.length "down_blocks.") = Ok c) by reflexivity.
    rewrite E1, E2, E3, E4. cbn [bind]. unfold c.
    rewrite int_of_char_digit by lia. cbn [bind]. now rewrite Hget.
  - intros ->. unfold hidden_size.
    assert (E1 : startswith ("mid_block" ++ rest'') "mid_block" = true).
    { unfold startswith. cbn. destruct rest''; reflexivity. }
    rewrite E1.
    destruct (py_getitem_last block_out_channels) as (y & Hy & Hny); [fold n; lia|].
    rewrite Hy. cbn [bind]. do 2 f_equal.
    replace (Z.to_nat (n - 1 - 0)) with (List.length block_out_channels - 1)%nat in Hnth
      by (unfold n, len; lia).
    congruence.
Qed.

Lemma hidden_sizes_mirror_witness :
  hidden_size example_block_out_channels "up_blocks.1.attentions.0.processor" None =
    Ok (Some 1280) /\
  hidden_size example_block_out_channels "down_blocks.2.attentions.1.processor" (Some 320) =
    Ok (Some 1280).
Proof.
  destruct (hidden_sizes_mirror example_block_out_channels 1
              ".attentions.0.processor" ".attentions.1.processor" EmptyString
              None (Some 320)) as (x & Hx & Hup & Hdown & _).
  - cbv. split; congruence.
  - cbv. congruence.
  - cbn in Hx. injection Hx as <-. split; [exact Hup | exact Hdown].
Defined.
